(** * qutebrowser [browser/commands.py]: the CommandDispatcher, embedded

    A shallow embedding of the tab-resolution, navigation, open-dispatch,
    URL-input and search-continuation logic of [CommandDispatcher].

    The dispatcher is glue over a GUI toolkit.  The part of the toolkit
    state that the dispatcher reads back (tab sequence, current index,
    per-window search text/options, per-tab search text and scroll
    position, the window registry) is an explicit [World]; every other
    call into a collaborator is appended, in program order, to an event
    trace.  Commands run in a state-and-exception monad over [World]: a
    raised exception keeps the state reached so far, as in Python. *)

From Stdlib Require Import ZArith String Ascii List Bool Lia DecimalString.
From Stdlib Require Import DecimalPos.
From stdpp Require Import base option list gmap strings.

Local Open Scope string_scope.
Local Open Scope Z_scope.

(** ** Exceptions and the command monad *)

Inductive Exn : Type :=
| CommandError (msg : string)   (* cmdexc.CommandError *)
| ValueError (msg : string)     (* builtin, from int() *)
| KeyError (key : string)       (* builtin, from dict lookup *)
| ZeroDivisionError             (* builtin, from % *)
| UnboundLocalError (name : string).

Inductive Outcome (A : Type) : Type :=
| Ret (a : A)
| Raise (e : Exn).
Arguments Ret {A} a.
Arguments Raise {A} e.

(** ** Data owned by the toolkit *)

(** A QUrl: its text, [isValid()] and [errorString()]. *)
Record QUrl : Type := mkQUrl {
  qurl_text : string;
  qurl_scheme : string;
  qurl_valid : bool;
  qurl_error : string
}.

(** QPoint, as returned by [tab.scroller.pos_px()]. *)
Record QPoint : Type := mkQPoint { px : Z; py : Z }.

(** The dict built in [search]: keys ['ignore_case'] and ['reverse'].  A
    key that is absent is [None] (the container starts with the empty
    dict). *)
Record SearchOptions : Type := mkSearchOptions {
  opt_ignore_case : option string;
  opt_reverse : option bool
}.

(** A browser tab, with the attributes the dispatcher reads. *)
Record Tab : Type := mkTab {
  tab_id : nat;
  tab_pinned : bool;                (* tab.data.pinned *)
  tab_search_text : option string;  (* tab.search.text *)
  tab_search_displayed : bool;      (* tab.search.search_displayed *)
  tab_pos_px : QPoint               (* tab.scroller.pos_px() *)
}.

(** [functools.partial(self._search_cb, tab=.., old_scroll_pos=..,
    options=.., text=.., prev=..)], defunctionalised. *)
Record SearchCb : Type := mkSearchCb {
  cb_tab : nat;
  cb_old_scroll_pos : QPoint;
  cb_options : SearchOptions;
  cb_text : string;
  cb_prev : bool
}.

(** QTabBar.SelectionBehavior *)
Inductive SelectionBehavior : Type :=
| SelectLeftTab
| SelectRightTab
| SelectPreviousTab.

(** A TabbedBrowser with its tab widget. *)
Record TabbedBrowser : Type := mkTabbedBrowser {
  tb_tabs : list Tab;                    (* widget.widget(i), in order *)
  tb_current : Z;                        (* widget.currentIndex(), -1 if none *)
  tb_private : bool;                     (* tabbed_browser.private *)
  tb_search_text : option string;        (* tabbed_browser.search_text *)
  tb_search_options : SearchOptions;     (* tabbed_browser.search_options *)
  tb_select_on_remove : SelectionBehavior (* tabBar().selectionBehaviorOnRemove() *)
}.

Definition tb_with_tabs (l : list Tab) (tb : TabbedBrowser) : TabbedBrowser :=
  mkTabbedBrowser l (tb_current tb) (tb_private tb) (tb_search_text tb)
                  (tb_search_options tb) (tb_select_on_remove tb).

Definition tb_with_current (i : Z) (tb : TabbedBrowser) : TabbedBrowser :=
  mkTabbedBrowser (tb_tabs tb) i (tb_private tb) (tb_search_text tb)
                  (tb_search_options tb) (tb_select_on_remove tb).

Definition tb_with_search (text : option string) (opts : SearchOptions)
    (tb : TabbedBrowser) : TabbedBrowser :=
  mkTabbedBrowser (tb_tabs tb) (tb_current tb) (tb_private tb) text opts
                  (tb_select_on_remove tb).

Definition tb_with_select_on_remove (b : SelectionBehavior)
    (tb : TabbedBrowser) : TabbedBrowser :=
  mkTabbedBrowser (tb_tabs tb) (tb_current tb) (tb_private tb)
                  (tb_search_text tb) (tb_search_options tb) b.

(** The values of [config.val] that the dispatcher consults. *)
Record Config : Type := mkConfig {
  cfg_tabs_wrap : bool;                           (* tabs.wrap *)
  cfg_select_on_remove : SelectionBehavior;       (* tabs.select_on_remove *)
  cfg_search_ignore_case : string;                (* search.ignore_case *)
  cfg_default_page : QUrl                         (* url.default_page *)
}.

(** Calls into collaborators whose effect is not read back here. *)
Inductive Event : Type :=
| EvLogDebug (msg : string)                       (* log.webview.debug *)
| EvMessageInfo (msg : string)                    (* message.info *)
| EvMessageWarning (msg : string)                 (* message.warning *)
| EvMessageError (msg : string)                   (* message.error *)
| EvNewWindow (private : option bool)             (* MainWindow(private=..).show() *)
| EvTabOpen (in_new_window : bool) (url : QUrl)
            (background : option bool) (related : option bool)
                                                  (* tabbed_browser.tabopen *)
| EvOpenUrl (tab : nat) (url : QUrl)              (* tab.openurl *)
| EvReload (tab : nat) (force : bool)             (* tab.reload *)
| EvStop (tab : nat)                              (* tab.stop *)
| EvSetTabPinned (tab : nat) (pinned : bool)      (* widget.set_tab_pinned *)
| EvCloseTab (tab : nat) (select : SelectionBehavior)
                     (* tabbed_browser.close_tab, and the tab bar's
                        selectionBehaviorOnRemove at that moment *)
| EvClosePromptIfPinned (tab : nat) (force prev next_ opposite : bool)
                                                  (* tab_close_prompt_if_pinned *)
| EvSetMark (key : string)                        (* tabbed_browser.set_mark *)
| EvSearchClear (tab : nat)                       (* tab.search.clear *)
| EvSearch (tab : nat) (text : string) (opts : SearchOptions)
           (cb : option SearchCb)                 (* tab.search.search *)
| EvNextResult (tab : nat) (cb : option SearchCb) (* tab.search.next_result *)
| EvPrevResult (tab : nat) (cb : option SearchCb) (* tab.search.prev_result *)
| EvActivateWindow (win : Z)                      (* window.activateWindow *)
| EvRaiseWindow (win : Z).                        (* window.raise_ *)

(** Everything a command of the dispatcher of window [w_win_id] can see. *)
Record World : Type := mkWorld {
  w_win_id : Z;                          (* self._win_id *)
  w_browser : TabbedBrowser;             (* self._tabbed_browser *)
  w_others : gmap Z TabbedBrowser;       (* the other windows of objreg.window_registry *)
  w_active : option Z;                   (* win_id of app.activeWindow() *)
  w_config : Config;                     (* config.val *)
  w_events : list Event                  (* calls made so far *)
}.

Definition M (A : Type) : Type := World -> Outcome A * World.

Definition ret {A} (a : A) : M A := fun w => (Ret a, w).
Definition raise {A} (e : Exn) : M A := fun w => (Raise e, w).
Definition bind {A B} (m : M A) (k : A -> M B) : M B :=
  fun w => match m w with
           | (Ret a, w') => k a w'
           | (Raise e, w') => (Raise e, w')
           end.
Definition get_world : M World := fun w => (Ret w, w).

Notation "'let*' x := m 'in' k" := (bind m (fun x => k))
  (at level 10, x name, m at level 100, k at level 200).
Notation "'do' m 'then' k" := (bind m (fun _ => k))
  (at level 10, m at level 100, k at level 200).

Definition emit (e : Event) : M unit :=
  fun w => (Ret tt, mkWorld (w_win_id w) (w_browser w) (w_others w)
                            (w_active w) (w_config w) (w_events w ++ [e])).

Definition set_browser (tb : TabbedBrowser) : M unit :=
  fun w => (Ret tt, mkWorld (w_win_id w) tb (w_others w)
                            (w_active w) (w_config w) (w_events w)).

Definition get_browser : M TabbedBrowser := fun w => (Ret (w_browser w), w).
Definition get_config : M Config := fun w => (Ret (w_config w), w).

(** ** Helpers from modules outside this file *)

Definition INT_MIN : Z := - 2 ^ 31.
Definition INT_MAX : Z := 2 ^ 31 - 1.

(** Modelled from the spec: [cmdutils.check_overflow] is defined in
    another module; section 7 lists an out-of-range numeric argument as an
    argument-validation error.  For ctype ['int'] the accepted range is the
    signed 32-bit one, and a value outside it raises [CommandError]. *)
Definition check_overflow (arg : Z) : M unit :=
  if (INT_MIN <=? arg) && (arg <=? INT_MAX) then ret tt
  else raise (CommandError
    "Numeric argument is too large for internal int representation.").

(** Python's [%] on ints: sign of the divisor, [ZeroDivisionError] on 0. *)
Definition py_mod (a b : Z) : M Z :=
  if b =? 0 then raise ZeroDivisionError else ret (a mod b).

(** ** The tab widget (QTabWidget) *)

Definition widget_count (tb : TabbedBrowser) : Z :=
  Z.of_nat (length (tb_tabs tb)).

(** [widget.widget(i)]: the tab at position [i], [None] out of range. *)
Definition widget_at (tb : TabbedBrowser) (i : Z) : option Tab :=
  if i <? 0 then None else tb_tabs tb !! Z.to_nat i.

(** [widget.currentWidget()] *)
Definition widget_current (tb : TabbedBrowser) : option Tab :=
  widget_at tb (tb_current tb).

(** [widget.setCurrentIndex(idx)]: Qt ignores an index that is not valid. *)
Definition widget_set_current_index (idx : Z) (tb : TabbedBrowser)
  : TabbedBrowser :=
  if (0 <=? idx) && (idx <? widget_count tb)
  then tb_with_current idx tb
  else tb.

(** The invariant Qt keeps for a tab widget: the count fits a C int with
    room for the [count + 1] overflow check, and the current index is -1
    exactly when there is no tab. *)
Definition widget_wf (tb : TabbedBrowser) : Prop :=
  widget_count tb < INT_MAX /\
  ((widget_count tb = 0 /\ tb_current tb = -1) \/
   (0 <= tb_current tb < widget_count tb)).

(** ** CommandDispatcher: convenience methods *)

Definition _count : M Z :=
  let* tb := get_browser in ret (widget_count tb).

Definition _set_current_index (idx : Z) : M unit :=
  do check_overflow idx then
  let* tb := get_browser in
  set_browser (widget_set_current_index idx tb).

Definition _current_index : M Z :=
  let* tb := get_browser in ret (tb_current tb).

Definition _current_widget : M Tab :=
  let* tb := get_browser in
  match widget_current tb with
  | None => raise (CommandError "No WebView available yet!")
  | Some widget => ret widget
  end.

(** ** tab_prev / tab_next *)

Definition tab_prev (count : Z) : M unit :=
  let* n := _count in
  if n =? 0 then ret tt
  else
    let* cur := _current_index in
    let newidx := cur - count in
    if newidx >=? 0 then _set_current_index newidx
    else
      let* cfg := get_config in
      if cfg_tabs_wrap cfg then
        let* n' := _count in
        let* r := py_mod newidx n' in
        _set_current_index r
      else emit (EvLogDebug "First tab").

Definition tab_next (count : Z) : M unit :=
  let* n := _count in
  if n =? 0 then ret tt
  else
    let* cur := _current_index in
    let newidx := cur + count in
    let* n1 := _count in
    if newidx <? n1 then _set_current_index newidx
    else
      let* cfg := get_config in
      if cfg_tabs_wrap cfg then
        let* n' := _count in
        let* r := py_mod newidx n' in
        _set_current_index r
      else emit (EvLogDebug "Last tab").

(** ** Python string primitives

    A [str] is a Rocq [string] read as one character per code point.
    The texts that can be written this way are those whose code points
    are below 256 (Latin-1); the character classes below are Python's on
    that range. *)

(** [str.isspace] on one character, which is also the set that
    [str.strip] removes: TAB..CR, FS..US, space, NEL (U+0085) and NBSP
    (U+00A0). *)
Definition py_isspace (c : ascii) : bool :=
  let n := Z.of_N (N_of_ascii c) in
  ((9 <=? n) && (n <=? 13)) || ((28 <=? n) && (n <=? 32))
  || (n =? 133) || (n =? 160).

(** The whitespace that [int()] skips around a literal: TAB..CR, space,
    NEL and NBSP, but not FS..US. *)
Definition int_isspace (c : ascii) : bool :=
  let n := Z.of_N (N_of_ascii c) in
  ((9 <=? n) && (n <=? 13)) || (n =? 32) || (n =? 133) || (n =? 160).

(** Dropping the leading characters of a class. *)
Fixpoint lstrip (space : ascii -> bool) (s : string) : string :=
  match s with
  | String c rest => if space c then lstrip space rest else s
  | EmptyString => EmptyString
  end.

(** Dropping the trailing characters of a class: a character is dropped
    when it and all that follows it are in the class. *)
Fixpoint rstrip (space : ascii -> bool) (s : string) : string :=
  match s with
  | String c rest =>
      match rstrip space rest with
      | EmptyString => if space c then EmptyString
                       else String c EmptyString
      | r => String c r
      end
  | EmptyString => EmptyString
  end.

(** [s.strip()] *)
Definition py_strip (s : string) : string :=
  rstrip py_isspace (lstrip py_isspace s).

(** The literal that [int(s)] reads, without the whitespace around it. *)
Definition int_strip (s : string) : string :=
  rstrip int_isspace (lstrip int_isspace s).

(** Truth value of a str: non-empty. *)
Definition py_truthy (s : string) : bool :=
  match s with EmptyString => false | _ => true end.

(** [s.split(sep)] for a one-character separator: the pieces between
    the separators, at least one piece. *)
Fixpoint py_split (sep : ascii) (s : string) : list string :=
  match s with
  | EmptyString => [EmptyString]
  | String c rest =>
      if Ascii.eqb c sep then EmptyString :: py_split sep rest
      else match py_split sep rest with
           | piece :: pieces => String c piece :: pieces
           | [] => [String c EmptyString]
           end
  end.

(** [s.split(sep, 1)]: cut at the first separator only. *)
Fixpoint py_split1 (sep : ascii) (s : string) : list string :=
  match s with
  | EmptyString => [EmptyString]
  | String c rest =>
      if Ascii.eqb c sep then [EmptyString; rest]
      else match py_split1 sep rest with
           | piece :: pieces => String c piece :: pieces
           | [] => [String c EmptyString]
           end
  end.

Definition digit_of (c : ascii) : option Z :=
  let n := Z.of_N (N_of_ascii c) in
  if (48 <=? n) && (n <=? 57) then Some (n - 48) else None.

(** Decimal digits, single underscores allowed between digits only. *)
Fixpoint parse_digits (acc : Z) (after_digit : bool) (s : string)
  : option Z :=
  match s with
  | EmptyString => if after_digit then Some acc else None
  | String c rest =>
      if Ascii.eqb c "_" then
        if after_digit then parse_digits acc false rest else None
      else match digit_of c with
           | Some d => parse_digits (10 * acc + d) true rest
           | None => None
           end
  end.

(** [int(s)] in base 10; [None] stands for [ValueError]. *)
Definition py_int (s : string) : option Z :=
  match int_strip s with
  | EmptyString => None
  | String c rest =>
      if Ascii.eqb c "+" then parse_digits 0 false rest
      else if Ascii.eqb c "-" then Z.opp <$> parse_digits 0 false rest
      else parse_digits 0 false (String c rest)
  end.

(** [str(n)] for an int. *)
Definition py_str (n : Z) : string := NilZero.string_of_int (Z.to_int n).

(** [sep.join(parts)] *)
Fixpoint py_join (sep : string) (parts : list string) : string :=
  match parts with
  | [] => EmptyString
  | [p] => p
  | p :: ps => p ++ sep ++ py_join sep ps
  end.

(** The characters of a str, each as a one-character str. *)
Fixpoint py_chars (s : string) : list string :=
  match s with
  | EmptyString => []
  | String c rest => String c EmptyString :: py_chars rest
  end.

(** ** More helpers from modules outside this file *)

(** Modelled from the spec: [cmdutils.check_exclusive] is defined in
    another module.  "At most one ... flag may be set; violating this
    signals an argument error": with more than one truthy flag it raises
    [CommandError], naming the flags as [-x/-y/..]. *)
Definition check_exclusive (flags : list bool) (names : string) : M unit :=
  if 1 <? Z.of_nat (length (List.filter (fun e : bool => e) flags)) then
    raise (CommandError
      ("Only one of " ++
       py_join "/" (map (fun e => "-" ++ e) (py_chars names)) ++
       " can be given!"))
  else ret tt.

(** Modelled from the spec: [urlutils.raise_cmdexc_if_invalid] is defined
    in another module; an invalid URL is "caught and re-signaled
    uniformly" as a command error carrying the URL's error string. *)
Definition raise_cmdexc_if_invalid (url : QUrl) : M unit :=
  if qurl_valid url then ret tt
  else raise (CommandError
    ("Invalid URL" ++
     (if py_truthy (qurl_error url) then ": " ++ qurl_error url
      else ""))).

(** Truth value of [private], which is [None], [False] or [True]. *)
Definition truthy_opt (b : option bool) : bool :=
  match b with Some true => true | _ => false end.

(** ** _open *)

(** [_new_tabbed_browser]: a new window is created and shown; its (empty)
    tabbed browser is where the following [tabopen] goes. *)
Definition _new_tabbed_browser (private : option bool) : M unit :=
  emit (EvNewWindow private).

Definition _open (url : QUrl) (tab background window related : bool)
    (private : option bool) : M unit :=
  do raise_cmdexc_if_invalid url then
  do check_exclusive [tab; background; window; truthy_opt private] "tbwp" then
  let* tb := get_browser in
  let private :=
    match private with
    | None => if window then Some (tb_private tb) else None
    | Some p => Some p
    end in
  if window || truthy_opt private then
    do _new_tabbed_browser private then
    emit (EvTabOpen true url None None)
  else if tab then
    emit (EvTabOpen false url (Some false) (Some related))
  else if background then
    emit (EvTabOpen false url (Some true) (Some related))
  else
    let* widget := _current_widget in
    emit (EvOpenUrl (tab_id widget) url).

(** ** _cntwidget and its callers *)

Definition _cntwidget (count : option Z) : M (option Tab) :=
  match count with
  | None =>
      let* tb := get_browser in ret (widget_current tb)
  | Some count =>
      let* n := _count in
      if (1 <=? count) && (count <=? n) then
        do check_overflow (count + 1) then
        let* tb := get_browser in
        ret (widget_at tb (count - 1))
      else ret None
  end.

(** The type of [tabs.select_on_remove] has exactly the three values, so
    the final [ValueError] branch of the source has no input. *)
Definition _get_selection_override (prev next_ opposite : bool)
  : M (option SelectionBehavior) :=
  do check_exclusive [prev; next_; opposite] "pno" then
  if prev then ret (Some SelectLeftTab)
  else if next_ then ret (Some SelectRightTab)
  else if opposite then
    let* cfg := get_config in
    match cfg_select_on_remove cfg with
    | SelectLeftTab => ret (Some SelectRightTab)
    | SelectRightTab => ret (Some SelectLeftTab)
    | SelectPreviousTab =>
        raise (CommandError
          "-o is not supported with 'tabs.select_on_remove' set to 'last-used'!")
    end
  else ret None.

Definition close_tab (tab : Tab) : M unit :=
  let* tb := get_browser in
  emit (EvCloseTab (tab_id tab) (tb_select_on_remove tb)).

Definition setSelectionBehaviorOnRemove (b : SelectionBehavior) : M unit :=
  let* tb := get_browser in
  set_browser (tb_with_select_on_remove b tb).

Definition _tab_close (tab : Tab) (prev next_ opposite : bool) : M unit :=
  let* selection_override := _get_selection_override prev next_ opposite in
  match selection_override with
  | None => close_tab tab
  | Some selection_override =>
      let* tb := get_browser in
      let old_selection_behavior := tb_select_on_remove tb in
      do setSelectionBehaviorOnRemove selection_override then
      do close_tab tab then
      setSelectionBehaviorOnRemove old_selection_behavior
  end.

(** [close] is [functools.partial(self._tab_close, tab, prev, next_,
    opposite)]; the container decides whether and when to call it. *)
Definition tab_close (prev next_ opposite force : bool) (count : option Z)
  : M unit :=
  let* tab := _cntwidget count in
  match tab with
  | None => ret tt
  | Some tab =>
      emit (EvClosePromptIfPinned (tab_id tab) force prev next_ opposite)
  end.

(** A method call on a tab object changes that object wherever the
    container holds it. *)
Definition update_tab (id : nat) (f : Tab -> Tab) : M unit :=
  let* tb := get_browser in
  set_browser
    (tb_with_tabs
       (map (fun t => if Nat.eqb (tab_id t) id then f t else t) (tb_tabs tb))
       tb).

(** [widget.set_tab_pinned(tab, pinned)] stores the flag in [tab.data]. *)
Definition set_tab_pinned (tab : Tab) (pinned : bool) : M unit :=
  do update_tab (tab_id tab)
       (fun t => mkTab (tab_id t) pinned (tab_search_text t)
                       (tab_search_displayed t) (tab_pos_px t)) then
  emit (EvSetTabPinned (tab_id tab) pinned).

Definition tab_pin (count : option Z) : M unit :=
  let* tab := _cntwidget count in
  match tab with
  | None => ret tt
  | Some tab =>
      let to_pin := negb (tab_pinned tab) in
      set_tab_pinned tab to_pin
  end.

Definition reloadpage (force : bool) (count : option Z) : M unit :=
  let* tab := _cntwidget count in
  match tab with
  | Some tab => emit (EvReload (tab_id tab) force)
  | None => ret tt
  end.

Definition stop (count : option Z) : M unit :=
  let* tab := _cntwidget count in
  match tab with
  | Some tab => emit (EvStop (tab_id tab))
  | None => ret tt
  end.

(** ** tab_move *)

(** The [index] argument of [tab_move]: ['+'], ['-'] or an int. *)
Inductive MoveIndex : Type :=
| IdxPlus
| IdxMinus
| IdxInt (i : Z).

Definition list_move {A} (from to : nat) (l : list A) : list A :=
  match l !! from with
  | Some x => take to (delete from l) ++ x :: drop to (delete from l)
  | None => l
  end.

(** [QTabBar.moveTab(from, to)]: nothing happens for equal or invalid
    positions; otherwise the tab is re-inserted at [to] and the current
    index keeps pointing at the tab that was current. *)
Definition widget_move_tab (from to : Z) (tb : TabbedBrowser)
  : TabbedBrowser :=
  let n := widget_count tb in
  if (from =? to) || negb ((0 <=? from) && (from <? n))
     || negb ((0 <=? to) && (to <? n))
  then tb
  else
    let cur := tb_current tb in
    let cur' :=
      if cur =? from then to
      else if (from <? cur) && (cur <=? to) then cur - 1
      else if (to <=? cur) && (cur <? from) then cur + 1
      else cur in
    tb_with_current cur'
      (tb_with_tabs (list_move (Z.to_nat from) (Z.to_nat to) (tb_tabs tb)) tb).

Definition tab_move (index : option MoveIndex) (count : option Z) : M unit :=
  let* new_idx :=
    match index with
    | Some IdxPlus | Some IdxMinus =>
        (* relative moving *)
        let* cur := _current_index in
        let delta := match count with None => 1 | Some c => c end in
        let new_idx :=
          match index with
          | Some IdxMinus => cur - delta
          | _ => cur + delta
          end in
        let* cfg := get_config in
        if cfg_tabs_wrap cfg then
          let* n := _count in py_mod new_idx n
        else ret new_idx
    | _ =>
        (* absolute moving *)
        match count, index with
        | Some count, _ => ret (count - 1)
        | None, Some (IdxInt index) =>
            if index >=? 0 then ret (index - 1)
            else let* n := _count in ret (index + n)
        | None, _ => ret 0
        end
    end in
  let* n := _count in
  if negb ((0 <=? new_idx) && (new_idx <? n)) then
    raise (CommandError
      ("Can't move tab to position " ++ py_str (new_idx + 1) ++ "!"))
  else
    let* cur_idx := _current_index in
    do check_overflow cur_idx then
    do check_overflow new_idx then
    let* tb := get_browser in
    set_browser (widget_move_tab cur_idx new_idx tb).

(** ** search, search_next, search_prev *)

Definition set_mark (key : string) : M unit := emit (EvSetMark key).

(** [tab.search.clear()]: the highlighting goes, the text stays. *)
Definition tab_search_clear (tab : Tab) : M unit :=
  do update_tab (tab_id tab)
       (fun t => mkTab (tab_id t) (tab_pinned t) (tab_search_text t)
                       false (tab_pos_px t)) then
  emit (EvSearchClear (tab_id tab)).

(** [tab.search.search(text, **options)]: the tab remembers the text. *)
Definition tab_search_search (tab : Tab) (text : string)
    (options : SearchOptions) (result_cb : option SearchCb) : M unit :=
  do update_tab (tab_id tab)
       (fun t => mkTab (tab_id t) (tab_pinned t) (Some text)
                       true (tab_pos_px t)) then
  emit (EvSearch (tab_id tab) text options result_cb).

Fixpoint repeat_m (n : nat) (m : M unit) : M unit :=
  match n with
  | O => ret tt
  | S n' => do m then repeat_m n' m
  end.

(** [going_up = options['reverse'] ^ prev], the first line of
    [_search_cb]. *)
Definition going_up (options : SearchOptions) (prev : bool) : M bool :=
  match opt_reverse options with
  | Some reverse => ret (xorb reverse prev)
  | None => raise (KeyError "reverse")
  end.

(** [_search_cb(found, tab=.., old_scroll_pos=.., options=.., text=..,
    prev=..)]; [pos_now] is [tab.scroller.pos_px()] when the toolkit calls
    back. *)
Definition _search_cb (found : bool) (cb : SearchCb) (pos_now : QPoint)
  : M unit :=
  let* going_up := going_up (cb_options cb) (cb_prev cb) in
  if found then
    if negb going_up && (py pos_now <? py (cb_old_scroll_pos cb)) then
      emit (EvMessageInfo "Search hit BOTTOM, continuing at TOP")
    else if going_up && (py pos_now >? py (cb_old_scroll_pos cb)) then
      emit (EvMessageInfo "Search hit TOP, continuing at BOTTOM")
    else ret tt
  else
    emit (EvMessageWarning ("Text '" ++ cb_text cb ++ "' not found on page!")).

(** The dict stored in the container is a copy taken before
    ['result_cb'] is added, so it holds the two option keys only. *)
Definition search (text : string) (reverse : bool) : M unit :=
  do set_mark "'" then
  let* tab := _current_widget in
  if negb (py_truthy text) then
    if tab_search_displayed tab then tab_search_clear tab else ret tt
  else
    let* cfg := get_config in
    let options :=
      mkSearchOptions (Some (cfg_search_ignore_case cfg)) (Some reverse) in
    let* tb := get_browser in
    do set_browser (tb_with_search (Some text) options tb) then
    let cb := mkSearchCb (tab_id tab) (tab_pos_px tab) options text false in
    tab_search_search tab text options (Some cb).

Definition search_next (count : Z) : M unit :=
  let* tab := _current_widget in
  let* tb := get_browser in
  let window_text := tb_search_text tb in
  let window_options := tb_search_options tb in
  match window_text with
  | None => raise (CommandError "No search done yet.")
  | Some text =>
      do set_mark "'" then
      let* count :=
        if negb (bool_decide (window_text = tab_search_text tab)) then
          do tab_search_clear tab then
          do tab_search_search tab text window_options None then
          ret (count - 1)
        else ret count in
      if count =? 0 then ret tt
      else
        let cb := mkSearchCb (tab_id tab) (tab_pos_px tab) window_options
                             text false in
        do repeat_m (Z.to_nat (count - 1))
                    (emit (EvNextResult (tab_id tab) None)) then
        emit (EvNextResult (tab_id tab) (Some cb))
  end.

Definition search_prev (count : Z) : M unit :=
  let* tab := _current_widget in
  let* tb := get_browser in
  let window_text := tb_search_text tb in
  let window_options := tb_search_options tb in
  match window_text with
  | None => raise (CommandError "No search done yet.")
  | Some text =>
      do set_mark "'" then
      let* count :=
        if negb (bool_decide (window_text = tab_search_text tab)) then
          do tab_search_clear tab then
          do tab_search_search tab text window_options None then
          ret (count - 1)
        else ret count in
      if count =? 0 then ret tt
      else
        let cb := mkSearchCb (tab_id tab) (tab_pos_px tab) window_options
                             text true in
        do repeat_m (Z.to_nat (count - 1))
                    (emit (EvPrevResult (tab_id tab) None)) then
        emit (EvPrevResult (tab_id tab) (Some cb))
  end.

(** ** URL input, openurl, buffer: code that consults other modules *)

(** The [url] argument of [openurl]: a QUrl or a str. *)
Inductive UrlArg : Type :=
| UrlQ (u : QUrl)
| UrlS (s : string).

(** What the dispatcher asks of modules outside this file. *)
Class Collaborators : Type := {
  (* urlutils.is_url *)
  is_url : string -> bool;
  (* urlutils.get_path_if_valid(s, check_exists=True) *)
  get_path_if_valid : string -> option string;
  (* objreg.get('quickmark-manager').get; None is urlmarks.Error *)
  quickmark_get : string -> option QUrl;
  (* urlutils.fuzzy_url(s, force_search=b); inr is str(InvalidUrlError) *)
  fuzzy_url : string -> bool -> QUrl + string;
  (* miscmodels.buffer() after set_pattern(s): the first column of its
     rows, best match first *)
  buffer_model : World -> string -> list string
}.

Section WithCollaborators.
Context {collab : Collaborators}.

Definition _parse_url (url : string) (force_search : bool)
  : M (option QUrl) :=
  match quickmark_get url with
  | Some u => ret (Some u)
  | None =>
      match fuzzy_url url force_search with
      | inl u => ret (Some u)
      | inr e =>
          do emit (EvMessageError e) then
          ret None
      end
  end.

(** [_parse_url_input] is a generator.  It is the list of its steps, one
    per element of [urllist]; a step that returns [None] yields nothing.
    The consumer runs the steps one by one. *)
Definition _parse_url_input (url : UrlArg) : list (M (option QUrl)) :=
  match url with
  | UrlQ u => [ret (Some u)]
  | UrlS url =>
      let urllist :=
        List.filter (fun u => py_truthy (py_strip u))
                    (py_split "010"%char url) in
      let condition :=
        match urllist with
        | first :: _ :: _ =>
            negb (is_url first) &&
            match get_path_if_valid first with None => true | _ => false end
        | _ => false
        end in
      let urllist := if condition then [url] else urllist in
      let force_search := condition in
      map (fun cur_url => _parse_url cur_url force_search) urllist
  end.

(** Running a generator to its end: what it yields, in order. *)
Fixpoint gen_collect {A} (gen : list (M (option A))) : M (list A) :=
  match gen with
  | [] => ret []
  | step :: gen' =>
      let* parsed := step in
      let* rest := gen_collect gen' in
      ret (match parsed with Some a => a :: rest | None => rest end)
  end.

(** [QUrl.setScheme] *)
Definition setScheme (scheme : string) (u : QUrl) : QUrl :=
  mkQUrl (qurl_text u) scheme (qurl_valid u) (qurl_error u).

(** The [for i, cur_url in enumerate(urls)] loop of [openurl]; [i] counts
    the URLs yielded so far, and [tab]/[bg] keep their reassigned
    values. *)
Fixpoint openurl_loop (gen : list (M (option QUrl))) (i : nat)
    (related bg tab window : bool) (count : option Z)
    (secure private : bool) : M unit :=
  match gen with
  | [] => ret tt
  | step :: gen' =>
      let* parsed := step in
      match parsed with
      | None => openurl_loop gen' i related bg tab window count secure private
      | Some cur_url =>
          let cur_url := if secure then setScheme "https" cur_url
                         else cur_url in
          let tab' := if negb window && Nat.ltb 0 i then false else tab in
          let bg' := if negb window && Nat.ltb 0 i then true else bg in
          let continue :=
            openurl_loop gen' (S i) related bg' tab' window count secure
                         private in
          if tab' || bg' || window || private then
            do _open cur_url tab' bg' window related (Some private) then
            continue
          else
            let* curtab := _cntwidget count in
            match curtab with
            | None =>
                match count with
                | None =>
                    do emit (EvTabOpen false cur_url None None) then
                    continue
                | Some _ => ret tt
                end
            | Some curtab =>
                if tab_pinned curtab then
                  do emit (EvMessageInfo "Tab is pinned!") then continue
                else
                  do emit (EvOpenUrl (tab_id curtab) cur_url) then continue
            end
      end
  end.

Definition openurl (url : option UrlArg) (related bg tab window : bool)
    (count : option Z) (secure private : bool) : M unit :=
  match url with
  | None =>
      let* cfg := get_config in
      openurl_loop [ret (Some (cfg_default_page cfg))] 0 related bg tab
                   window count secure private
  | Some url =>
      openurl_loop (_parse_url_input url) 0 related bg tab window count
                   secure private
  end.

(** [win_id in objreg.window_registry] and
    [objreg.get('tabbed-browser', scope='window', window=win_id)] *)
Definition registry_lookup (w : World) (win_id : Z) : option TabbedBrowser :=
  if win_id =? w_win_id w then Some (w_browser w) else w_others w !! win_id.

Definition registry_alter (win_id : Z) (f : TabbedBrowser -> TabbedBrowser)
  : M unit :=
  fun w =>
    (Ret tt,
     if win_id =? w_win_id w then
       mkWorld (w_win_id w) (f (w_browser w)) (w_others w) (w_active w)
               (w_config w) (w_events w)
     else
       mkWorld (w_win_id w) (w_browser w) (alter f win_id (w_others w))
               (w_active w) (w_config w) (w_events w)).

Definition int_or_raise (s : string) : M Z :=
  match py_int s with
  | Some n => ret n
  | None =>
      raise (ValueError
        ("invalid literal for int() with base 10: '" ++ s ++ "'"))
  end.

(** The result is the window id of the tabbed browser found and the tab. *)
Definition _resolve_buffer_index (index : string) : M (Z * option Tab) :=
  let index_parts := py_split1 "/"%char index in
  let* index_parts :=
    if forallb (fun part => bool_decide (is_Some (py_int part))) index_parts
    then ret index_parts
    else
      let* w := get_world in
      match buffer_model w index with
      | first_item :: _ => ret (py_split1 "/"%char first_item)
      | [] => raise (CommandError ("No matching tab for: " ++ index))
      end in
  let* ids :=
    match index_parts with
    | [p0; p1] =>
        let* win_id := int_or_raise p0 in
        let* idx := int_or_raise p1 in
        ret (win_id, idx)
    | [p0] =>
        let* idx := int_or_raise p0 in
        let* w := get_world in
        match w_active w with
        | None =>
            raise (CommandError
              "No window specified and couldn't find active window!")
        | Some win_id => ret (win_id, idx)
        end
    | _ => raise (UnboundLocalError "win_id")
    end in
  let win_id := fst ids in
  let idx := snd ids in
  let* w := get_world in
  match registry_lookup w win_id with
  | None =>
      raise (CommandError
        ("There's no window with id " ++ py_str win_id ++ "!"))
  | Some tabbed_browser =>
      if negb ((0 <? idx) && (idx <=? widget_count tabbed_browser)) then
        raise (CommandError
          ("There's no tab with index " ++ py_str idx ++ "!"))
      else ret (win_id, widget_at tabbed_browser (idx - 1))
  end.

(** [widget.indexOf(tab)]: the position of the tab object, -1 if absent. *)
Fixpoint index_of (id : nat) (tabs : list Tab) : Z :=
  match tabs with
  | [] => -1
  | t :: rest =>
      if Nat.eqb (tab_id t) id then 0
      else let r := index_of id rest in if r <? 0 then -1 else r + 1
  end.

(** [widget.setCurrentWidget(tab)] *)
Definition widget_set_current_widget (tab : option Tab) (tb : TabbedBrowser)
  : TabbedBrowser :=
  match tab with
  | None => tb
  | Some t => widget_set_current_index (index_of (tab_id t) (tb_tabs tb)) tb
  end.

Definition buffer (index : option string) (count : option Z) : M unit :=
  let focus (index : string) : M unit :=
    let* r := _resolve_buffer_index index in
    let win_id := fst r in
    let tab := snd r in
    do emit (EvActivateWindow win_id) then
    do emit (EvRaiseWindow win_id) then
    registry_alter win_id (widget_set_current_widget tab) in
  match count, index with
  | None, None =>
      openurl (Some (UrlS "qute://tabs/")) false false true false None
              false false
  | Some count, _ => focus (py_str count)
  | None, Some index => focus index
  end.

End WithCollaborators.

(** ** Vocabulary for the statements *)

Definition world_with_browser (tb : TabbedBrowser) (w : World) : World :=
  mkWorld (w_win_id w) tb (w_others w) (w_active w) (w_config w) (w_events w).

Definition world_with_current (i : Z) (w : World) : World :=
  world_with_browser (tb_with_current i (w_browser w)) w.

Definition world_with_events (evs : list Event) (w : World) : World :=
  mkWorld (w_win_id w) (w_browser w) (w_others w) (w_active w) (w_config w)
          (w_events w ++ evs).

(** Number of flags that are truthy. *)
Definition flags_set (flags : list bool) : nat :=
  length (List.filter (fun b => b) flags).

(** The message of [check_exclusive] for the flags of [_open]. *)
Definition only_one_tbwp : string := "Only one of -t/-b/-w/-p can be given!".

(** The message of [check_exclusive] for the flags of [tab_close]. *)
Definition only_one_pno : string := "Only one of -p/-n/-o can be given!".

(** The separator of [win_id/index]. *)
Definition slash : ascii := "/"%char.

(** Every part of [index.split('/', 1)] is accepted by [int()]. *)
Definition index_parseable (index : string) : bool :=
  forallb (fun part => bool_decide (is_Some (py_int part)))
          (py_split1 slash index).

(** The non-blank lines of a str, [urllist] in [_parse_url_input]. *)
Definition nonblank_lines (url : string) : list string :=
  List.filter (fun u => py_truthy (py_strip u)) (py_split "010"%char url).

Section ResolutionVocabulary.
Context {collab : Collaborators}.

(** What resolving one item gives: the quickmark of that name if there is
    one, else what the URL-or-search heuristic returns; [None] when the
    heuristic rejects the item. *)
Definition resolved_url (force_search : bool) (item : string)
  : option QUrl :=
  match quickmark_get item with
  | Some u => Some u
  | None => match fuzzy_url item force_search with
            | inl u => Some u
            | inr _ => None
            end
  end.

(** The error message shown for an item that does not resolve. *)
Definition resolution_error (force_search : bool) (item : string)
  : option Event :=
  match quickmark_get item with
  | Some _ => None
  | None => match fuzzy_url item force_search with
            | inl _ => None
            | inr e => Some (EvMessageError e)
            end
  end.

(** Resolving the items one after the other, in order: the URLs of those
    that resolve, and an error message for each of the others. *)
Definition resolution_of (force_search : bool) (items : list string)
    (w : World) : Outcome (list QUrl) * World :=
  (Ret (omap (resolved_url force_search) items),
   world_with_events (omap (resolution_error force_search) items) w).

End ResolutionVocabulary.

(** Collaborators for the examples: a name is a URL when it starts with
    [http], no path exists, there is no quickmark, and the heuristic
    accepts everything, marking a forced search by its scheme. *)
Definition sample_collaborators : Collaborators := {|
  is_url := fun s => String.prefix "http" s;
  get_path_if_valid := fun _ => None;
  quickmark_get := fun _ => None;
  fuzzy_url := fun s force_search =>
    inl (mkQUrl s (if force_search then "search" else "url") true "");
  buffer_model := fun _ pattern =>
    if String.eqb pattern "nothing" then [] else ["2/3"]
|}.

(** The three lines [a], [b], [c]. *)
Definition three_lines : string :=
  String "a" (String "010" (String "b" (String "010" (String "c" EmptyString)))).

(** ** Sample worlds *)

Definition sample_tab (id : nat) : Tab :=
  mkTab id false None false (mkQPoint 0 0).

Definition sample_config (wrap : bool) (sel : SelectionBehavior) : Config :=
  mkConfig wrap sel "smart" (mkQUrl "about:blank" "about" true "").

(** Four tabs, the third one current, nothing searched yet. *)
Definition browser4 : TabbedBrowser :=
  mkTabbedBrowser [sample_tab 10; sample_tab 11; sample_tab 12; sample_tab 13]
                  2 false None (mkSearchOptions None None) SelectRightTab.

(** A browser whose last tab was closed. *)
Definition browser0 : TabbedBrowser :=
  mkTabbedBrowser [] (-1) false None (mkSearchOptions None None)
                  SelectRightTab.

Definition world4 (wrap : bool) (sel : SelectionBehavior) : World :=
  mkWorld 0 browser4 ∅ (Some 0) (sample_config wrap sel) [].

Definition world0 : World :=
  mkWorld 0 browser0 ∅ (Some 0) (sample_config true SelectRightTab) [].

(** Window 0 with four tabs and window 2 with the same four. *)
Definition world_two_windows : World :=
  mkWorld 0 browser4 {[ 2 := tb_with_current 0 browser4 ]} (Some 0)
          (sample_config true SelectRightTab) [].

(** ** Further commands of the dispatcher *)

(** The [index] argument of [tab_focus]: ['last'] or an int. *)
Inductive FocusIndex : Type :=
| FocusLast
| FocusInt (i : Z).

(** Objects that other modules keep in the object registry. *)
Class Registry : Type := {
  (* objreg.get('last-focused-tab', scope='window', window=win_id);
     None is KeyError *)
  last_focused_tab : World -> option Tab
}.

Section WithRegistry.
Context {registry : Registry}.

Definition _tab_focus_last (show_error : bool) : M unit :=
  let* w := get_world in
  match last_focused_tab w with
  | None =>
      if negb show_error then ret tt
      else raise (CommandError "No last focused tab!")
  | Some tab =>
      let* tb := get_browser in
      let idx := index_of (tab_id tab) (tb_tabs tb) in
      if idx =? -1 then raise (CommandError "Last focused tab vanished!")
      else _set_current_index idx
  end.

Definition tab_focus (index : option FocusIndex) (count : option Z)
    (no_last : bool) : M unit :=
  let index :=
    match count with
    | Some count => Some (FocusInt count)
    | None => index
    end in
  match index with
  | Some FocusLast => _tab_focus_last true
  | None => tab_next 1
  | Some (FocusInt index) =>
      let* cur := _current_index in
      if negb no_last && (index =? cur + 1) then _tab_focus_last false
      else
        let* index :=
          if index <? 0 then let* n := _count in ret (n + index + 1)
          else ret index in
        let* n := _count in
        if (1 <=? index) && (index <=? n) then _set_current_index (index - 1)
        else raise (CommandError
          ("There's no tab with index " ++ py_str index ++ "!"))
  end.

End WithRegistry.

(** [jseval_cb] of [jseval], for [quiet=False]; [out] is [None] or the
    text [str(out)] of the value that the page returned. *)
Definition jseval_cb (out : option string) : M unit :=
  match out with
  | None => emit (EvMessageInfo "No output or error")
  | Some out =>
      let out :=
        if Nat.ltb 5000 (String.length out)
        then substring 0 5000 out ++ " [...trimmed...]"
        else out in
      emit (EvMessageInfo out)
  end.

(** ** tab_only *)

(** The calls that [tab_only] makes on the tabbed browser.  The
    [yes_action] of the prompt is
    [lambda: self.tab_only(prev=.., next_=.., force=..)],
    defunctionalised to its three arguments. *)
Inductive Call : Type :=
| CallCloseTab (tab : nat) (new_undo : bool)
    (* tabbed_browser.close_tab(tab, new_undo=..) *)
| CallClosePromptIfPinned (tab : nat) (force : bool)
    (yes_prev yes_next_ yes_force : bool) (text : string).
    (* tabbed_browser.tab_close_prompt_if_pinned(tab, force, yes_action,
                                                 text=..) *)

(** How a command that can also fail an [assert] ends. *)
Inductive Failure : Type :=
| Raised (e : Exn)
| AssertionError.

Definition _to_close (prev next_ : bool) (cur_idx i : Z) : bool :=
  negb ((i =? cur_idx) || (prev && (i <? cur_idx))
        || (next_ && (i >? cur_idx))).

(** The loop over [enumerate(self._tabbed_browser.widgets())], from
    position [i] on: the calls made and the final [pinned_tabs_cleanup],
    which is [False] ([None] here) or a tab. *)
Fixpoint tab_only_loop (prev next_ force : bool) (cur_idx i : Z)
    (tabs : list Tab) (first_tab : bool) (pinned_tabs_cleanup : option Tab)
  : list Call * option Tab :=
  match tabs with
  | [] => ([], pinned_tabs_cleanup)
  | tab :: rest =>
      if _to_close prev next_ cur_idx i then
        if force || negb (tab_pinned tab) then
          let r := tab_only_loop prev next_ force cur_idx (i + 1) rest false
                                 pinned_tabs_cleanup in
          (CallCloseTab (tab_id tab) first_tab :: fst r, snd r)
        else
          tab_only_loop prev next_ force cur_idx (i + 1) rest first_tab
                        (Some tab)
      else
        tab_only_loop prev next_ force cur_idx (i + 1) rest first_tab
                      pinned_tabs_cleanup
  end.

(** The result is how the command ends and the calls it made, in order;
    it changes nothing else. *)
Definition tab_only (prev next_ force : bool) (w : World)
  : (Failure + unit) * list Call :=
  match fst (check_exclusive [prev; next_] "pn" w) with
  | Raise e => (inl (Raised e), [])
  | Ret _ =>
      let cur_idx := tb_current (w_browser w) in
      if cur_idx =? -1 then (inl AssertionError, [])
      else
        let r := tab_only_loop prev next_ force cur_idx 0
                               (tb_tabs (w_browser w)) true None in
        match snd r with
        | Some pinned_tabs_cleanup =>
            (inr tt,
             (fst r ++
              [CallClosePromptIfPinned (tab_id pinned_tabs_cleanup) force
                 prev next_ true
                 "Are you sure you want to close pinned tabs?"])%list)
        | None => (inr tt, fst r)
        end
  end.

(** A call that closes a tab. *)
Definition is_close (c : Call) : Prop :=
  exists id u, c = CallCloseTab id u.

(** The tab at position [k] is one that [tab_only] is asked to close. *)
Definition to_be_closed (prev next_ : bool) (tb : TabbedBrowser) (k : nat)
  : Prop :=
  Z.of_nat k <> tb_current tb /\
  (prev = true -> tb_current tb < Z.of_nat k) /\
  (next_ = true -> Z.of_nat k < tb_current tb).

(** ** Samples for the further commands *)

Definition sample_registry : Registry :=
  {| last_focused_tab := fun _ => Some (sample_tab 10) |}.

Definition sample_pinned_tab (id : nat) : Tab :=
  mkTab id true None false (mkQPoint 0 0).

(** Four tabs, the second one pinned, the third one current. *)
Definition world_pinned : World :=
  mkWorld 0
    (mkTabbedBrowser
       [sample_tab 10; sample_pinned_tab 11; sample_tab 12; sample_tab 13]
       2 false None (mkSearchOptions None None) SelectRightTab)
    ∅ (Some 0) (sample_config true SelectRightTab) [].

(** The two lines [http://a] and [http://b]. *)
Definition two_urls : string :=
  "http://a" ++ String "010" "http://b".

(** Two tabs, the second one current and showing the matches of a
    forward search for [foo]. *)
Definition world_searched : World :=
  mkWorld 0
    (mkTabbedBrowser
       [sample_tab 10; mkTab 11 false (Some "foo") true (mkQPoint 0 0)]
       1 false (Some "foo") (mkSearchOptions (Some "smart") (Some false))
       SelectRightTab)
    ∅ (Some 0) (sample_config true SelectRightTab) [].

(** * Properties *)

(** ** The Python primitives on sample inputs *)

Example py_int_samples :
  py_int " 12 " = Some 12 /\ py_int "-1_0" = Some (-10) /\
  py_int "007" = Some 7 /\ py_int "+3" = Some 3 /\
  py_int "" = None /\ py_int "1__0" = None /\ py_int "3_" = None /\
  py_int "2/3" = None /\ py_int "abc" = None.
Proof. repeat split. Qed.

Example py_split_samples :
  py_split "010"%char three_lines = ["a"; "b"; "c"] /\
  py_split1 slash "1/2/3" = ["1"; "2/3"] /\
  py_split1 slash "" = [""] /\
  py_split slash "a/" = ["a"; ""] /\
  py_strip "  a b  " = "a b".
Proof. repeat split. Qed.

Example py_str_samples :
  py_str 0 = "0" /\ py_str (-3) = "-3" /\ py_str 120 = "120".
Proof. repeat split. Qed.

(** Whitespace as Python has it: NBSP (160) and NEL (133) are blank for
    [str.strip] and skipped by [int()]; FS..US (28..31) are blank for
    [str.strip] but make [int()] raise. *)
Example py_whitespace_samples :
  py_strip (String "160" (String "a" (String "133" ""))) = "a" /\
  py_strip (String "028" "2") = "2" /\
  nonblank_lines (String "a" (String "010" (String "160" ""))) = ["a"] /\
  nonblank_lines (String "a" (String "010" (String "031" (String "009" ""))))
    = ["a"] /\
  py_int (String "160" (String "2" (String "133" ""))) = Some 2 /\
  py_int (String "028" "2") = None /\
  py_int (String "2" (String "031" "")) = None /\
  index_parseable (String "028" "2/3") = false /\
  index_parseable (String "2" (String "160" "/3")) = true.
Proof. repeat split. Qed.

Example py_mod_samples :
  fst (py_mod (-1) 4 world0) = Ret 3 /\ fst (py_mod 5 4 world0) = Ret 1 /\
  fst (py_mod 1 0 world0) = Raise ZeroDivisionError.
Proof. repeat split. Qed.

(** The monad laws, at a world. *)
Lemma bind_ret_l {A B} (a : A) (k : A -> M B) (w : World) :
  bind (ret a) k w = k a w.
Proof. reflexivity. Qed.

Lemma bind_assoc {A B C} (m : M A) (f : A -> M B) (g : B -> M C)
    (w : World) :
  bind (bind m f) g w = bind m (fun a => bind (f a) g) w.
Proof. unfold bind. destruct (m w) as [[a|e] w']; reflexivity. Qed.

Lemma bind_count {B} (k : Z -> M B) (w : World) :
  bind _count k w = k (widget_count (w_browser w)) w.
Proof. reflexivity. Qed.

Lemma bind_raise {A B} (e : Exn) (k : A -> M B) (w : World) :
  bind (raise e) k w = (Raise e, w).
Proof. reflexivity. Qed.

Lemma bind_emit {B} (e : Event) (k : unit -> M B) (w : World) :
  bind (emit e) k w = k tt (world_with_events [e] w).
Proof. reflexivity. Qed.

Lemma bind_get_browser {B} (k : TabbedBrowser -> M B) (w : World) :
  bind get_browser k w = k (w_browser w) w.
Proof. reflexivity. Qed.

Lemma bind_set_browser {B} (tb : TabbedBrowser) (k : unit -> M B)
    (w : World) :
  bind (set_browser tb) k w = k tt (world_with_browser tb w).
Proof. reflexivity. Qed.

Lemma bind_get_config {B} (k : Config -> M B) (w : World) :
  bind get_config k w = k (w_config w) w.
Proof. reflexivity. Qed.

Lemma bind_get_world {B} (k : World -> M B) (w : World) :
  bind get_world k w = k w w.
Proof. reflexivity. Qed.

Lemma emit_run (e : Event) (w : World) :
  emit e w = (Ret tt, world_with_events [e] w).
Proof. reflexivity. Qed.

Lemma widget_count_nonneg tb : 0 <= widget_count tb.
Proof. unfold widget_count. lia. Qed.

Lemma int_bounds : INT_MIN = -2147483648 /\ INT_MAX = 2147483647.
Proof. split; reflexivity. Qed.

(** [_set_current_index] at a valid position just moves the current
    index. *)
Lemma set_current_index_valid (w : World) (idx : Z) :
  widget_count (w_browser w) <= INT_MAX ->
  0 <= idx < widget_count (w_browser w) ->
  _set_current_index idx w = (Ret tt, world_with_current idx w).
Proof.
  intros Hn Hidx. destruct int_bounds as [Hmin Hmax].
  unfold _set_current_index, check_overflow, bind, ret, get_browser,
    set_browser, widget_set_current_index.
  replace (INT_MIN <=? idx) with true by (symmetry; apply Z.leb_le; lia).
  replace (idx <=? INT_MAX) with true by (symmetry; apply Z.leb_le; lia).
  simpl.
  replace (0 <=? idx) with true by (symmetry; apply Z.leb_le; lia).
  replace (idx <? widget_count (w_browser w)) with true
    by (symmetry; apply Z.ltb_lt; lia).
  reflexivity.
Qed.

Lemma tab_next_unfold (w : World) (count : Z) :
  widget_count (w_browser w) <> 0 ->
  tab_next count w =
    let newidx := tb_current (w_browser w) + count in
    if newidx <? widget_count (w_browser w) then _set_current_index newidx w
    else if cfg_tabs_wrap (w_config w) then
      _set_current_index (newidx mod widget_count (w_browser w)) w
    else (Ret tt, world_with_events [EvLogDebug "Last tab"] w).
Proof.
  intros Hn. unfold tab_next, _count, _current_index, get_browser,
    get_config, py_mod, bind, ret.
  apply Z.eqb_neq in Hn. rewrite Hn. cbv zeta.
  destruct (_ <? _); [reflexivity|].
  destruct (cfg_tabs_wrap _); [|reflexivity].
  rewrite Hn. reflexivity.
Qed.

Lemma tab_prev_unfold (w : World) (count : Z) :
  widget_count (w_browser w) <> 0 ->
  tab_prev count w =
    let newidx := tb_current (w_browser w) - count in
    if newidx >=? 0 then _set_current_index newidx w
    else if cfg_tabs_wrap (w_config w) then
      _set_current_index (newidx mod widget_count (w_browser w)) w
    else (Ret tt, world_with_events [EvLogDebug "First tab"] w).
Proof.
  intros Hn. unfold tab_prev, _count, _current_index, get_browser,
    get_config, py_mod, bind, ret.
  apply Z.eqb_neq in Hn. rewrite Hn. cbv zeta.
  destruct (_ >=? _); [reflexivity|].
  destruct (cfg_tabs_wrap _); [|reflexivity].
  rewrite Hn. reflexivity.
Qed.

(** C1.  On a window with at least one tab (and a valid current index) a
    [count >= 0] gives: the new index is [current + count] for [tab_next]
    and [current - count] for [tab_prev] when that lies in
    [[0, tab_count)]; outside that range it is taken modulo [tab_count]
    when [tabs.wrap] is set, and otherwise the browser is left as it was
    and only a debug line is logged; no error is raised in any case. *)
Theorem tab_next_prev_navigation (w : World) (count : Z) :
  widget_wf (w_browser w) ->
  0 < widget_count (w_browser w) ->
  0 <= count ->
  let n := widget_count (w_browser w) in
  let cur := tb_current (w_browser w) in
  let in_range i := 0 <= i < n in
  (in_range (cur + count) ->
     tab_next count w = (Ret tt, world_with_current (cur + count) w)) /\
  (~ in_range (cur + count) -> cfg_tabs_wrap (w_config w) = true ->
     tab_next count w =
       (Ret tt, world_with_current ((cur + count) mod n) w)) /\
  (~ in_range (cur + count) -> cfg_tabs_wrap (w_config w) = false ->
     tab_next count w = (Ret tt, world_with_events [EvLogDebug "Last tab"] w)) /\
  (in_range (cur - count) ->
     tab_prev count w = (Ret tt, world_with_current (cur - count) w)) /\
  (~ in_range (cur - count) -> cfg_tabs_wrap (w_config w) = true ->
     tab_prev count w =
       (Ret tt, world_with_current ((cur - count) mod n) w)) /\
  (~ in_range (cur - count) -> cfg_tabs_wrap (w_config w) = false ->
     tab_prev count w = (Ret tt, world_with_events [EvLogDebug "First tab"] w)).
Proof.
  intros [Hmax Hcur] Hpos Hcount n cur in_range.
  assert (Hc : 0 <= cur < n) by (subst n cur; lia).
  assert (Hn : n <> 0) by lia.
  assert (Hle : n <= INT_MAX) by (subst n; lia).
  assert (Hmod : forall i, 0 <= i mod n < n)
    by (intros i; apply Z.mod_pos_bound; lia).
  subst in_range. cbv beta.
  repeat split.
  - intros Hin. rewrite tab_next_unfold by exact Hn. cbv zeta.
    fold cur n. replace (cur + count <? n) with true
      by (symmetry; apply Z.ltb_lt; lia).
    apply set_current_index_valid; assumption.
  - intros Hout Hwrap. rewrite tab_next_unfold by exact Hn. cbv zeta.
    fold cur n. replace (cur + count <? n) with false
      by (symmetry; apply Z.ltb_ge; lia).
    rewrite Hwrap. apply set_current_index_valid; [assumption | apply Hmod].
  - intros Hout Hwrap. rewrite tab_next_unfold by exact Hn. cbv zeta.
    fold cur n. replace (cur + count <? n) with false
      by (symmetry; apply Z.ltb_ge; lia).
    rewrite Hwrap. reflexivity.
  - intros Hin. rewrite tab_prev_unfold by exact Hn. cbv zeta.
    fold cur n. replace (cur - count >=? 0) with true
      by (symmetry; rewrite Z.geb_leb; apply Z.leb_le; lia).
    apply set_current_index_valid; assumption.
  - intros Hout Hwrap. rewrite tab_prev_unfold by exact Hn. cbv zeta.
    fold cur n. replace (cur - count >=? 0) with false
      by (symmetry; rewrite Z.geb_leb; apply Z.leb_gt; lia).
    rewrite Hwrap. apply set_current_index_valid; [assumption | apply Hmod].
  - intros Hout Hwrap. rewrite tab_prev_unfold by exact Hn. cbv zeta.
    fold cur n. replace (cur - count >=? 0) with false
      by (symmetry; rewrite Z.geb_leb; apply Z.leb_gt; lia).
    rewrite Hwrap. reflexivity.
Qed.

Lemma tab_next_prev_navigation_witness :
  widget_wf (w_browser (world4 true SelectRightTab)) /\
  tab_next 3 (world4 true SelectRightTab) =
    (Ret tt, world_with_current 1 (world4 true SelectRightTab)) /\
  tab_prev 3 (world4 true SelectRightTab) =
    (Ret tt, world_with_current 3 (world4 true SelectRightTab)).
Proof.
  assert (Hwf : widget_wf (w_browser (world4 true SelectRightTab))).
  { split; [reflexivity | right; vm_compute; split; [discriminate | reflexivity]]. }
  assert (Hpos : 0 < widget_count (w_browser (world4 true SelectRightTab)))
    by reflexivity.
  assert (Hcount : 0 <= 3) by lia.
  pose proof (tab_next_prev_navigation (world4 true SelectRightTab) 3
                Hwf Hpos Hcount) as H.
  cbv zeta in H.
  destruct H as (_ & Hnext & _ & _ & Hprev & _).
  split; [exact Hwf|]. split.
  - apply Hnext; [vm_compute; intros [_ H]; discriminate H | reflexivity].
  - apply Hprev; [vm_compute; intros [H _]; apply H; reflexivity | reflexivity].
Defined.

Lemma set_current_index_outcome (idx : Z) (w : World) :
  fst (_set_current_index idx w) = Ret tt \/
  exists msg, fst (_set_current_index idx w) = Raise (CommandError msg).
Proof.
  unfold _set_current_index, check_overflow, bind, ret, raise, get_browser,
    set_browser.
  destruct (_ && _); simpl; eauto.
Qed.

(** C10.  With no tab in the window, [tab_next] and [tab_prev] return at
    once: no state change, no exception.  Hence the modulo of the
    wraparound branch never sees a zero tab count: neither command can
    raise [ZeroDivisionError], whatever the window and the count. *)
Theorem tab_next_prev_zero_tabs (w : World) (count : Z) :
  (widget_count (w_browser w) = 0 ->
     tab_next count w = (Ret tt, w) /\ tab_prev count w = (Ret tt, w)) /\
  fst (tab_next count w) <> Raise ZeroDivisionError /\
  fst (tab_prev count w) <> Raise ZeroDivisionError.
Proof.
  assert (Hzero : widget_count (w_browser w) = 0 ->
     tab_next count w = (Ret tt, w) /\ tab_prev count w = (Ret tt, w)).
  { intros Hn. unfold tab_next, tab_prev, _count, get_browser, bind, ret.
    rewrite Hn. split; reflexivity. }
  split; [exact Hzero|].
  destruct (Z.eq_dec (widget_count (w_browser w)) 0) as [Hn|Hn].
  - destruct (Hzero Hn) as [-> ->]. split; discriminate.
  - rewrite tab_next_unfold, tab_prev_unfold by exact Hn. cbv zeta.
    split.
    + destruct (_ <? _); [|destruct (cfg_tabs_wrap _)];
        try (destruct (set_current_index_outcome
                         (tb_current (w_browser w) + count) w)
               as [-> | [msg ->]]; discriminate);
        try (destruct (set_current_index_outcome
                         ((tb_current (w_browser w) + count)
                            `mod` widget_count (w_browser w)) w)
               as [-> | [msg ->]]; discriminate).
      discriminate.
    + destruct (_ >=? _); [|destruct (cfg_tabs_wrap _)];
        try (destruct (set_current_index_outcome
                         (tb_current (w_browser w) - count) w)
               as [-> | [msg ->]]; discriminate);
        try (destruct (set_current_index_outcome
                         ((tb_current (w_browser w) - count)
                            `mod` widget_count (w_browser w)) w)
               as [-> | [msg ->]]; discriminate).
      discriminate.
Qed.

Lemma tab_next_prev_zero_tabs_witness :
  tab_next 1 world0 = (Ret tt, world0) /\ tab_prev 1 world0 = (Ret tt, world0).
Proof.
  apply (proj1 (tab_next_prev_zero_tabs world0 1)). reflexivity.
Defined.

Lemma widget_at_in_range (tb : TabbedBrowser) (i : Z) :
  0 <= i < widget_count tb ->
  exists t, widget_at tb i = Some t /\ tb_tabs tb !! Z.to_nat i = Some t.
Proof.
  intros Hi. unfold widget_at, widget_count in *.
  replace (i <? 0) with false by (symmetry; apply Z.ltb_ge; lia).
  destruct (lookup_lt_is_Some_2 (tb_tabs tb) (Z.to_nat i)) as [t Ht];
    [lia | eauto].
Qed.

(** C2.  In a window whose tab count leaves room for the [count + 1]
    overflow check, [_cntwidget] returns the current widget when the
    count is absent, the tab at 1-based position [c] when
    [1 <= c <= tab_count], and [None] for every other [c], never raising
    and never touching the state; and whenever it returns [None],
    [tab_close], [tab_pin], [reload] and [stop] return without any
    effect. *)
Theorem cntwidget_resolution (w : World) :
  widget_count (w_browser w) < INT_MAX ->
  _cntwidget None w = (Ret (widget_current (w_browser w)), w) /\
  (forall c, 1 <= c <= widget_count (w_browser w) ->
     exists t, tb_tabs (w_browser w) !! Z.to_nat (c - 1) = Some t /\
               _cntwidget (Some c) w = (Ret (Some t), w)) /\
  (forall c, ~ (1 <= c <= widget_count (w_browser w)) ->
     _cntwidget (Some c) w = (Ret None, w)) /\
  (forall count prev next_ opposite force,
     _cntwidget count w = (Ret None, w) ->
     tab_close prev next_ opposite force count w = (Ret tt, w) /\
     tab_pin count w = (Ret tt, w) /\
     reloadpage force count w = (Ret tt, w) /\
     stop count w = (Ret tt, w)).
Proof.
  intros Hmax. destruct int_bounds as [Hmin HMAX].
  split; [reflexivity|]. split; [|split].
  - intros c Hc.
    destruct (widget_at_in_range (w_browser w) (c - 1)) as (t & Hat & Hl);
      [lia|].
    exists t. split; [exact Hl|].
    unfold _cntwidget, _count, check_overflow, get_browser, bind, ret.
    replace (1 <=? c) with true by (symmetry; apply Z.leb_le; lia).
    replace (c <=? widget_count (w_browser w)) with true
      by (symmetry; apply Z.leb_le; lia).
    replace (INT_MIN <=? c + 1) with true by (symmetry; apply Z.leb_le; lia).
    replace (c + 1 <=? INT_MAX) with true by (symmetry; apply Z.leb_le; lia).
    simpl. rewrite Hat. reflexivity.
  - intros c Hc.
    unfold _cntwidget, _count, get_browser, bind, ret.
    destruct (1 <=? c) eqn:E1; [|reflexivity].
    destruct (c <=? widget_count (w_browser w)) eqn:E2; [|reflexivity].
    apply Z.leb_le in E1, E2. lia.
  - intros count prev next_ opposite force Hnone.
    unfold tab_close, tab_pin, reloadpage, stop, bind.
    rewrite Hnone. repeat split; reflexivity.
Qed.

Lemma cntwidget_resolution_witness :
  _cntwidget (Some 5) (world4 true SelectRightTab)
    = (Ret None, world4 true SelectRightTab) /\
  reloadpage false (Some 5) (world4 true SelectRightTab)
    = (Ret tt, world4 true SelectRightTab) /\
  (exists t,
     tb_tabs browser4 !! Z.to_nat (4 - 1) = Some t /\
     _cntwidget (Some 4) (world4 true SelectRightTab)
       = (Ret (Some t), world4 true SelectRightTab)).
Proof.
  assert (Hmax : widget_count (w_browser (world4 true SelectRightTab))
                 < INT_MAX) by reflexivity.
  destruct (cntwidget_resolution (world4 true SelectRightTab) Hmax)
    as (_ & Hin & Hout & Hcallers).
  assert (Hnone : _cntwidget (Some 5) (world4 true SelectRightTab)
                  = (Ret None, world4 true SelectRightTab)).
  { apply Hout. vm_compute. intros [_ H]. apply H. reflexivity. }
  split; [exact Hnone|]. split.
  - apply (Hcallers (Some 5) false false false false Hnone).
  - apply Hin. vm_compute. split; discriminate.
Defined.

(** C3.  With two or more of [tab], [background], [window], [private]
    truthy, [_open] raises a [CommandError] and the world, trace of
    toolkit calls included, is what it was: nothing was opened.  For a
    valid URL the error is the one of the exclusivity check (for an
    invalid URL, the URL check has raised before it).  With at most one
    flag set, the exclusivity error is never raised. *)
Theorem open_exclusive_flags (url : QUrl)
    (tab background window related : bool) (private : option bool)
    (w : World) :
  let flags := [tab; background; window; truthy_opt private] in
  ((2 <= flags_set flags)%nat ->
     exists msg,
       _open url tab background window related private w
         = (Raise (CommandError msg), w) /\
       (qurl_valid url = true -> msg = only_one_tbwp)) /\
  ((flags_set flags <= 1)%nat ->
     fst (_open url tab background window related private w)
       <> Raise (CommandError only_one_tbwp)).
Proof.
  cbv zeta. unfold flags_set, only_one_tbwp. split.
  - intros Hflags.
    unfold _open, raise_cmdexc_if_invalid, bind, ret, raise.
    destruct (qurl_valid url).
    + exists only_one_tbwp. split; [|reflexivity].
      destruct tab, background, window, private as [[|]|];
        simpl in Hflags; try lia; reflexivity.
    + eexists. split; [reflexivity | discriminate].
  - intros Hflags.
    unfold _open, raise_cmdexc_if_invalid, _new_tabbed_browser, _current_widget,
      get_browser, emit, bind, ret, raise.
    destruct (qurl_valid url); [|simpl; discriminate].
    destruct tab, background, window, private as [[|]|];
      simpl in Hflags; try lia; simpl; try discriminate;
      destruct (widget_current (w_browser w)); simpl; discriminate.
Qed.

Lemma open_exclusive_flags_witness :
  (exists msg,
     _open (mkQUrl "http://example.org/" "http" true "") true true false
           false None (world4 true SelectRightTab)
       = (Raise (CommandError msg), world4 true SelectRightTab) /\
     (true = true -> msg = only_one_tbwp)) /\
  fst (_open (mkQUrl "http://example.org/" "http" true "") true false false
             false None (world4 true SelectRightTab))
    <> Raise (CommandError only_one_tbwp).
Proof.
  split.
  - apply (proj1 (open_exclusive_flags
                    (mkQUrl "http://example.org/" "http" true "")
                    true true false false None (world4 true SelectRightTab))).
    vm_compute. lia.
  - apply (proj2 (open_exclusive_flags
                    (mkQUrl "http://example.org/" "http" true "")
                    true false false false None (world4 true SelectRightTab))).
    vm_compute. lia.
Defined.

(** C6, the claim as stated fails: with [prev] set as well, a call with
    [opposite=True] and a select-left default does not return
    select-right; the exclusivity check raises first. *)
Lemma selection_override_opposite_and_prev :
  cfg_select_on_remove (w_config (world4 true SelectLeftTab)) = SelectLeftTab /\
  _get_selection_override true false true (world4 true SelectLeftTab)
    = (Raise (CommandError only_one_pno), world4 true SelectLeftTab) /\
  fst (_get_selection_override true false true (world4 true SelectLeftTab))
    <> Ret (Some SelectRightTab).
Proof. repeat split. vm_compute. discriminate. Qed.

(** C6, amended.  A call with [opposite=True] and neither [prev] nor
    [next_] set returns select-right for a select-left default,
    select-left for a select-right default, and raises a [CommandError]
    for the last-used default.  When [prev] or [next_] is set together
    with [opposite], the exclusivity check raises a [CommandError]
    whatever the default is. *)
Theorem selection_override_opposite (prev next_ : bool) (w : World) :
  (prev = false -> next_ = false ->
   _get_selection_override prev next_ true w =
     match cfg_select_on_remove (w_config w) with
     | SelectLeftTab => (Ret (Some SelectRightTab), w)
     | SelectRightTab => (Ret (Some SelectLeftTab), w)
     | SelectPreviousTab =>
         (Raise (CommandError
            "-o is not supported with 'tabs.select_on_remove' set to 'last-used'!"),
          w)
     end) /\
  (prev = true \/ next_ = true ->
   _get_selection_override prev next_ true w
     = (Raise (CommandError only_one_pno), w)).
Proof.
  split.
  - intros -> ->.
    unfold _get_selection_override, check_exclusive, get_config, bind, ret,
      raise. simpl.
    destruct (cfg_select_on_remove (w_config w)); reflexivity.
  - intros [-> | ->]; [destruct next_ | destruct prev]; reflexivity.
Qed.

Lemma selection_override_opposite_witness :
  _get_selection_override false false true (world4 true SelectPreviousTab)
    = (Raise (CommandError
         "-o is not supported with 'tabs.select_on_remove' set to 'last-used'!"),
       world4 true SelectPreviousTab) /\
  _get_selection_override false true true (world4 true SelectPreviousTab)
    = (Raise (CommandError only_one_pno), world4 true SelectPreviousTab).
Proof.
  split.
  - apply (proj1 (selection_override_opposite false false
                    (world4 true SelectPreviousTab))); reflexivity.
  - apply (proj2 (selection_override_opposite false true
                    (world4 true SelectPreviousTab))). right. reflexivity.
Defined.

(** C8, the claim as stated fails: in a window without a current tab,
    [search_next] and [search_prev] with no search done raise the error of
    [_current_widget], not "No search done yet.". *)
Lemma search_next_without_tab :
  tb_search_text (w_browser world0) = None /\
  search_next 1 world0
    = (Raise (CommandError "No WebView available yet!"), world0) /\
  search_prev 1 world0
    = (Raise (CommandError "No WebView available yet!"), world0) /\
  fst (search_next 1 world0) <> Raise (CommandError "No search done yet.").
Proof. repeat split. vm_compute. discriminate. Qed.

(** C8, amended.  When no search has been done in the window
    ([search_text] is [None]), [search_next] and [search_prev] raise a
    [CommandError] and leave the world as it was, so no search is issued
    and no mark is set: the message is "No search done yet." when the
    window has a current tab, and "No WebView available yet!" when it has
    none. *)
Theorem search_continuation_without_search (w : World) (count : Z) :
  tb_search_text (w_browser w) = None ->
  let msg :=
    match widget_current (w_browser w) with
    | Some _ => "No search done yet."
    | None => "No WebView available yet!"
    end in
  search_next count w = (Raise (CommandError msg), w) /\
  search_prev count w = (Raise (CommandError msg), w).
Proof.
  intros Hnone. cbv zeta.
  unfold search_next, search_prev, _current_widget, get_browser, bind, ret,
    raise.
  destruct (widget_current (w_browser w)); [|split; reflexivity].
  rewrite Hnone. split; reflexivity.
Qed.

Lemma search_continuation_without_search_witness :
  search_next 1 (world4 true SelectRightTab)
    = (Raise (CommandError "No search done yet."), world4 true SelectRightTab) /\
  search_prev 1 (world4 true SelectRightTab)
    = (Raise (CommandError "No search done yet."), world4 true SelectRightTab).
Proof.
  apply (search_continuation_without_search (world4 true SelectRightTab) 1).
  reflexivity.
Defined.

(** ** tab_move *)

Lemma check_overflow_ok (arg : Z) (w : World) :
  INT_MIN <= arg <= INT_MAX -> check_overflow arg w = (Ret tt, w).
Proof.
  intros H. unfold check_overflow.
  replace (INT_MIN <=? arg) with true by (symmetry; apply Z.leb_le; lia).
  replace (arg <=? INT_MAX) with true by (symmetry; apply Z.leb_le; lia).
  reflexivity.
Qed.

(** The two outcomes of [tab_move]. *)
Lemma tab_move_refused (w : World) (new_idx : Z) (k : M unit) :
  ~ (0 <= new_idx < widget_count (w_browser w)) ->
  (let* n := _count in
   if negb ((0 <=? new_idx) && (new_idx <? n)) then
     raise (CommandError
       ("Can't move tab to position " ++ py_str (new_idx + 1) ++ "!"))
   else k) w
  = (Raise (CommandError
       ("Can't move tab to position " ++ py_str (new_idx + 1) ++ "!")), w).
Proof.
  intros H. unfold _count, get_browser, bind, ret, raise.
  destruct (0 <=? new_idx) eqn:E1;
    destruct (new_idx <? widget_count (w_browser w)) eqn:E2;
    try reflexivity.
  apply Z.leb_le in E1. apply Z.ltb_lt in E2. lia.
Qed.

Lemma tab_move_performed (w : World) (new_idx : Z) :
  widget_wf (w_browser w) ->
  0 <= new_idx < widget_count (w_browser w) ->
  (let* n := _count in
   if negb ((0 <=? new_idx) && (new_idx <? n)) then
     raise (CommandError
       ("Can't move tab to position " ++ py_str (new_idx + 1) ++ "!"))
   else
     let* cur_idx := _current_index in
     do check_overflow cur_idx then
     do check_overflow new_idx then
     let* tb := get_browser in
     set_browser (widget_move_tab cur_idx new_idx tb)) w
  = (Ret tt,
     world_with_browser
       (widget_move_tab (tb_current (w_browser w)) new_idx (w_browser w)) w).
Proof.
  intros [Hmax Hcur] H. destruct int_bounds as [Hmin HMAX].
  unfold _count, _current_index, get_browser, set_browser, bind, ret.
  replace (0 <=? new_idx) with true by (symmetry; apply Z.leb_le; lia).
  replace (new_idx <? widget_count (w_browser w)) with true
    by (symmetry; apply Z.ltb_lt; lia).
  simpl.
  rewrite check_overflow_ok by lia.
  rewrite check_overflow_ok by lia.
  reflexivity.
Qed.

Lemma move_to_front_keeps_current (tb : TabbedBrowser) :
  0 <= tb_current tb < widget_count tb ->
  tb_current (widget_move_tab (tb_current tb) 0 tb) = 0 /\
  widget_current (widget_move_tab (tb_current tb) 0 tb) = widget_current tb.
Proof.
  intros Hcur. unfold widget_move_tab.
  destruct (tb_current tb =? 0) eqn:E0.
  - apply Z.eqb_eq in E0. simpl. split; [exact E0 | reflexivity].
  - apply Z.eqb_neq in E0.
    replace (0 <=? tb_current tb) with true by (symmetry; apply Z.leb_le; lia).
    replace (tb_current tb <? widget_count tb) with true
      by (symmetry; apply Z.ltb_lt; lia).
    replace (0 <? widget_count tb) with true
      by (symmetry; apply Z.ltb_lt; lia).
    simpl. rewrite Z.eqb_refl. split; [reflexivity|].
    unfold widget_current, widget_at. simpl.
    replace (tb_current tb <? 0) with false by (symmetry; apply Z.ltb_ge; lia).
    unfold list_move.
    destruct (tb_tabs tb !! Z.to_nat (tb_current tb)) as [x|] eqn:El.
    + reflexivity.
    + apply lookup_ge_None in El. unfold widget_count in Hcur. lia.
Qed.

(** C9, the claim as stated fails: the absolute index [-1] lies outside
    [[1, 4]], yet on a 4-tab window [tab_move] raises nothing and moves
    the current tab to the last position. *)
Lemma tab_move_negative_index :
  ~ (1 <= -1 <= widget_count (w_browser (world4 true SelectRightTab))) /\
  tab_move (Some (IdxInt (-1))) None (world4 true SelectRightTab)
    = (Ret tt,
       world_with_browser
         (mkTabbedBrowser
            [sample_tab 10; sample_tab 11; sample_tab 13; sample_tab 12]
            3 false None (mkSearchOptions None None) SelectRightTab)
         (world4 true SelectRightTab)).
Proof. split; [vm_compute; intros [H _]; apply H; reflexivity | reflexivity]. Qed.

(** C9, amended.  With neither index nor count, [tab_move] moves the
    current tab to the first position.  An absolute target given as a
    count, or as an index that is not negative, raises a [CommandError]
    instead of moving when it lies outside [[1, tab_count]].  A negative
    index [i] counts from the end: it moves the tab to position
    [tab_count + i + 1] when [-tab_count <= i], and raises only below
    that. *)
Theorem tab_move_absolute (w : World) :
  widget_wf (w_browser w) ->
  let n := widget_count (w_browser w) in
  let cur := tb_current (w_browser w) in
  let moved_to i :=
    (Ret tt, world_with_browser (widget_move_tab cur i (w_browser w)) w) in
  let refused p :=
    (Raise (CommandError ("Can't move tab to position " ++ py_str p ++ "!")),
     w) in
  (0 < n ->
     tab_move None None w = moved_to 0 /\
     tb_current (widget_move_tab cur 0 (w_browser w)) = 0 /\
     widget_current (widget_move_tab cur 0 (w_browser w))
       = widget_current (w_browser w)) /\
  (forall c index, index <> Some IdxPlus -> index <> Some IdxMinus ->
     ~ (1 <= c <= n) -> tab_move index (Some c) w = refused c) /\
  (forall i, 0 <= i -> ~ (1 <= i <= n) ->
     tab_move (Some (IdxInt i)) None w = refused i) /\
  (forall i, - n <= i < 0 ->
     tab_move (Some (IdxInt i)) None w = moved_to (n + i)) /\
  (forall i, i < - n ->
     tab_move (Some (IdxInt i)) None w = refused (n + i + 1)).
Proof.
  intros Hwf n cur moved_to refused.
  pose proof Hwf as [Hmax Hcur].
  subst moved_to refused. cbv beta.
  split; [|split; [|split; [|split]]].
  - intros Hpos.
    assert (Hc : 0 <= cur < n) by (subst n cur; lia).
    split; [|apply move_to_front_keeps_current; exact Hc].
    unfold tab_move. rewrite bind_ret_l.
    apply (tab_move_performed w 0 Hwf). subst n. lia.
  - intros c index Hp Hm Hc.
    replace c with (c - 1 + 1) at 2 by lia.
    destruct index as [[| |j]|]; try congruence;
      unfold tab_move; rewrite bind_ret_l;
      apply tab_move_refused; subst n; lia.
  - intros i Hi Hout.
    replace i with (i - 1 + 1) at 2 by lia.
    unfold tab_move.
    replace (i >=? 0) with true
      by (symmetry; rewrite Z.geb_leb; apply Z.leb_le; lia).
    cbv iota. rewrite bind_ret_l.
    apply tab_move_refused; subst n; lia.
  - intros i Hi.
    unfold tab_move.
    replace (i >=? 0) with false
      by (symmetry; rewrite Z.geb_leb; apply Z.leb_gt; lia).
    cbv iota. rewrite bind_assoc, bind_count, bind_ret_l.
    fold n. replace (i + n) with (n + i) by lia.
    apply (tab_move_performed w (n + i) Hwf). subst n. lia.
  - intros i Hi.
    unfold tab_move.
    replace (i >=? 0) with false
      by (symmetry; rewrite Z.geb_leb; apply Z.leb_gt; lia).
    cbv iota. rewrite bind_assoc, bind_count, bind_ret_l.
    fold n. replace (i + n) with (n + i) by lia.
    apply tab_move_refused; subst n; lia.
Qed.

Lemma tab_move_absolute_witness :
  tab_move None None (world4 true SelectRightTab)
    = (Ret tt,
       world_with_browser
         (mkTabbedBrowser
            [sample_tab 12; sample_tab 10; sample_tab 11; sample_tab 13]
            0 false None (mkSearchOptions None None) SelectRightTab)
         (world4 true SelectRightTab)) /\
  tab_move None (Some 5) (world4 true SelectRightTab)
    = (Raise (CommandError "Can't move tab to position 5!"),
       world4 true SelectRightTab).
Proof.
  assert (Hwf : widget_wf (w_browser (world4 true SelectRightTab))).
  { split; [reflexivity | right; vm_compute; split; [discriminate | reflexivity]]. }
  pose proof (tab_move_absolute (world4 true SelectRightTab) Hwf) as H.
  cbv zeta in H. destruct H as (Hfirst & Hcount & _).
  split.
  - destruct Hfirst as [Hmove _]; [reflexivity|]. exact Hmove.
  - apply (Hcount 5 None); [discriminate | discriminate |].
    vm_compute. intros [_ H]. apply H. reflexivity.
Defined.

(** ** search continuation *)

Lemma lookup_map {A B} (f : A -> B) (l : list A) (i : nat) :
  map f l !! i = f <$> (l !! i).
Proof.
  revert i. induction l as [|a l IH]; intros [|i]; simpl; auto.
Qed.

Lemma widget_current_update (tb : TabbedBrowser) (tab : Tab)
    (f : Tab -> Tab) :
  widget_current tb = Some tab ->
  widget_current
    (tb_with_tabs
       (map (fun t => if Nat.eqb (tab_id t) (tab_id tab) then f t else t)
            (tb_tabs tb)) tb)
  = Some (f tab).
Proof.
  unfold widget_current, widget_at. simpl.
  destruct (tb_current tb <? 0); [discriminate|].
  intros H. rewrite lookup_map, H. simpl. rewrite Nat.eqb_refl. reflexivity.
Qed.

Lemma repeat_m_emit (n : nat) (e : Event) (w : World) :
  repeat_m n (emit e) w = (Ret tt, world_with_events (repeat e n) w).
Proof.
  revert w. induction n as [|n IH]; intros w; simpl.
  - unfold ret, world_with_events. rewrite app_nil_r. destruct w; reflexivity.
  - unfold bind. simpl. rewrite IH. unfold world_with_events. simpl.
    rewrite <- app_assoc. reflexivity.
Qed.


Lemma bind_repeat_emit {B} (n : nat) (e : Event) (k : unit -> M B)
    (w : World) :
  bind (repeat_m n (emit e)) k w = k tt (world_with_events (repeat e n) w).
Proof. unfold bind at 1. rewrite repeat_m_emit. reflexivity. Qed.

(** Run the primitive at the head of a command. *)
Ltac run_steps :=
  repeat (rewrite ?bind_assoc;
          first [ rewrite bind_get_browser | rewrite bind_set_browser
                | rewrite bind_get_config | rewrite bind_get_world
                | rewrite bind_emit | rewrite bind_ret_l | rewrite bind_raise
                | rewrite bind_repeat_emit | rewrite emit_run ]).





(** ** URL input *)

Lemma world_with_events_nil (w : World) : world_with_events [] w = w.
Proof. unfold world_with_events. rewrite app_nil_r. destruct w; reflexivity. Qed.

Lemma world_with_events_app (evs1 evs2 : list Event) (w : World) :
  world_with_events evs2 (world_with_events evs1 w)
  = world_with_events (evs1 ++ evs2) w.
Proof. unfold world_with_events. simpl. rewrite app_assoc. reflexivity. Qed.

Section UrlInput.
Context {collab : Collaborators}.

Lemma parse_url_run (url : string) (force_search : bool) (w : World) :
  _parse_url url force_search w =
    (Ret (resolved_url force_search url),
     world_with_events
       (option_list (resolution_error force_search url)) w).
Proof.
  unfold _parse_url, resolved_url, resolution_error.
  destruct (quickmark_get url).
  - simpl. rewrite world_with_events_nil. reflexivity.
  - destruct (fuzzy_url url force_search).
    + simpl. rewrite world_with_events_nil. reflexivity.
    + reflexivity.
Qed.

Lemma gen_collect_parse (force_search : bool) (items : list string)
    (w : World) :
  gen_collect (map (fun cur_url => _parse_url cur_url force_search) items) w
  = resolution_of force_search items w.
Proof.
  unfold resolution_of. revert w.
  induction items as [|item items IH]; intros w.
  - simpl. rewrite world_with_events_nil. reflexivity.
  - simpl gen_collect. unfold bind at 1. rewrite parse_url_run.
    unfold bind at 1. rewrite IH. unfold ret. simpl omap.
    rewrite world_with_events_app.
    unfold resolved_url, resolution_error.
    destruct (quickmark_get item); [reflexivity|].
    destruct (fuzzy_url item force_search); reflexivity.
Qed.

(** C4.  When the input has more than one non-blank line and the first of
    them ([urllist[0]]) is neither a URL ([is_url]) nor an existing path,
    the input is not split: what is yielded is the resolution of the
    whole string with [force_search=True].  In every other case each
    non-blank line is resolved on its own, in order, without forcing a
    search.  A line is blank when [str.strip] leaves nothing of it. *)
Theorem parse_url_input_multiline (url : string) (w : World) :
  (forall first second rest,
     nonblank_lines url = first :: second :: rest ->
     is_url first = false ->
     get_path_if_valid first = None ->
     gen_collect (_parse_url_input (UrlS url)) w = resolution_of true [url] w) /\
  (~ (exists first second rest,
        nonblank_lines url = first :: second :: rest /\
        is_url first = false /\ get_path_if_valid first = None) ->
     gen_collect (_parse_url_input (UrlS url)) w
       = resolution_of false (nonblank_lines url) w).
Proof.
  split.
  - intros first second rest Hlines Hurl Hpath.
    unfold _parse_url_input. fold (nonblank_lines url).
    rewrite Hlines, Hurl, Hpath. cbv [negb andb].
    apply gen_collect_parse.
  - intros Hnot.
    unfold _parse_url_input. fold (nonblank_lines url).
    destruct (nonblank_lines url) as [|first [|second rest]] eqn:Hlines;
      try apply gen_collect_parse.
    destruct (is_url first) eqn:Hurl; [apply gen_collect_parse|].
    destruct (get_path_if_valid first) eqn:Hpath; [apply gen_collect_parse|].
    exfalso. apply Hnot. exists first, second, rest. auto.
Qed.

End UrlInput.

Lemma parse_url_input_multiline_witness :
  gen_collect (@_parse_url_input sample_collaborators (UrlS three_lines))
              (world4 true SelectRightTab)
  = (Ret [mkQUrl three_lines "search" true ""], world4 true SelectRightTab) /\
  gen_collect (@_parse_url_input sample_collaborators (UrlS "http://a"))
              (world4 true SelectRightTab)
  = (Ret [mkQUrl "http://a" "url" true ""], world4 true SelectRightTab).
Proof.
  split.
  - apply (proj1 (@parse_url_input_multiline sample_collaborators three_lines
                    (world4 true SelectRightTab)) "a" "b" ["c"]);
      reflexivity.
  - apply (proj2 (@parse_url_input_multiline sample_collaborators "http://a"
                    (world4 true SelectRightTab))).
    intros (first & second & rest & Hlines & _). discriminate Hlines.
Defined.

(** ** buffer *)

Lemma parse_digits_no_slash (s : string) (acc : Z) (after_digit : bool)
    (n : Z) :
  parse_digits acc after_digit s = Some n ->
  ~ In slash (list_ascii_of_string s).
Proof.
  revert acc after_digit. induction s as [|c s IH]; intros acc b H Hin.
  - destruct Hin.
  - simpl in H, Hin. destruct Hin as [-> | Hin].
    + vm_compute in H. discriminate H.
    + destruct (Ascii.eqb c "_").
      * destruct b; [|discriminate]. exact (IH _ _ H Hin).
      * destruct (digit_of c); [|discriminate]. exact (IH _ _ H Hin).
Qed.

Lemma lstrip_keeps_slash (space : ascii -> bool) (s : string) :
  space slash = false ->
  In slash (list_ascii_of_string s) ->
  In slash (list_ascii_of_string (lstrip space s)).
Proof.
  intros Hslash.
  induction s as [|c s IH]; [auto|]. intros Hin. simpl.
  destruct (space c) eqn:Esp; [|exact Hin].
  destruct Hin as [-> | Hin]; [congruence | auto].
Qed.

Lemma rstrip_keeps_slash (space : ascii -> bool) (s : string) :
  space slash = false ->
  In slash (list_ascii_of_string s) ->
  In slash (list_ascii_of_string (rstrip space s)).
Proof.
  intros Hslash.
  induction s as [|c s IH]; [auto|]. intros Hin. simpl.
  destruct Hin as [-> | Hin].
  - destruct (rstrip space s); [rewrite Hslash|]; simpl; auto.
  - specialize (IH Hin). destruct (rstrip space s); [destruct IH|].
    simpl. right. exact IH.
Qed.

Lemma py_int_no_slash (s : string) (n : Z) :
  py_int s = Some n -> ~ In slash (list_ascii_of_string s).
Proof.
  intros H Hin.
  apply (lstrip_keeps_slash int_isspace), (rstrip_keeps_slash int_isspace)
    in Hin; [|reflexivity..].
  fold (int_strip s) in Hin. unfold py_int in H.
  destruct (int_strip s) as [|c t]; [destruct Hin|].
  destruct (Ascii.eqb c "+") eqn:Eplus; [|destruct (Ascii.eqb c "-") eqn:Eminus].
  - apply Ascii.eqb_eq in Eplus. subst c.
    destruct Hin as [Hc | Hin]; [discriminate Hc|].
    exact (parse_digits_no_slash _ _ _ _ H Hin).
  - apply Ascii.eqb_eq in Eminus. subst c.
    destruct Hin as [Hc | Hin]; [discriminate Hc|].
    destruct (parse_digits 0 false t) eqn:Hp; [|discriminate].
    exact (parse_digits_no_slash _ _ _ _ Hp Hin).
  - exact (parse_digits_no_slash _ _ _ _ H Hin).
Qed.

Lemma split1_at_first_sep (sep : ascii) (W I : string) :
  ~ In sep (list_ascii_of_string W) ->
  py_split1 sep (W ++ String sep I) = [W; I].
Proof.
  induction W as [|c W IH]; intros Hno; simpl.
  - rewrite Ascii.eqb_refl. reflexivity.
  - simpl in Hno.
    destruct (Ascii.eqb c sep) eqn:E.
    + apply Ascii.eqb_eq in E. tauto.
    + rewrite IH by tauto. reflexivity.
Qed.

Lemma index_of_lookup (tabs : list Tab) (k : nat) (t : Tab) :
  NoDup (map tab_id tabs) ->
  tabs !! k = Some t ->
  index_of (tab_id t) tabs = Z.of_nat k.
Proof.
  revert k. induction tabs as [|a tabs IH]; intros k Hnd Hk; [discriminate|].
  simpl in Hnd. apply NoDup_cons in Hnd as [Hnotin Hnd].
  destruct k as [|k]; simpl in Hk |- *.
  - injection Hk as ->. rewrite Nat.eqb_refl. reflexivity.
  - destruct (Nat.eqb (tab_id a) (tab_id t)) eqn:E.
    + apply Nat.eqb_eq in E. exfalso. apply Hnotin. rewrite E.
      apply list_elem_of_In, in_map, list_elem_of_In.
      eapply list_elem_of_lookup_2. exact Hk.
    + rewrite (IH k Hnd Hk).
      replace (Z.of_nat k <? 0) with false by (symmetry; apply Z.ltb_ge; lia).
      lia.
Qed.

Lemma registry_lookup_with_events (evs : list Event) (w : World) (win_id : Z) :
  registry_lookup (world_with_events evs w) win_id = registry_lookup w win_id.
Proof. reflexivity. Qed.

Lemma registry_lookup_alter (w : World) (win_id : Z)
    (f : TabbedBrowser -> TabbedBrowser) :
  registry_lookup (snd (registry_alter win_id f w)) win_id
  = f <$> registry_lookup w win_id.
Proof.
  unfold registry_lookup, registry_alter. simpl.
  destruct (win_id =? w_win_id w) eqn:E; simpl; rewrite E.
  - reflexivity.
  - apply lookup_alter_eq.
Qed.

Lemma set_current_widget_in_range (tb : TabbedBrowser) (k : nat) (t : Tab) :
  NoDup (map tab_id (tb_tabs tb)) ->
  tb_tabs tb !! k = Some t ->
  widget_set_current_widget (Some t) tb = tb_with_current (Z.of_nat k) tb.
Proof.
  intros Hnd Hk. unfold widget_set_current_widget.
  rewrite (index_of_lookup _ k t Hnd Hk).
  unfold widget_set_current_index, widget_count.
  apply lookup_lt_Some in Hk.
  replace (0 <=? Z.of_nat k) with true by (symmetry; apply Z.leb_le; lia).
  replace (Z.of_nat k <? Z.of_nat (length (tb_tabs tb))) with true
    by (symmetry; apply Z.ltb_lt; lia).
  reflexivity.
Qed.

Section Buffer.
Context {collab : Collaborators}.

Lemma is_int_true (s : string) (n : Z) :
  py_int s = Some n -> bool_decide (is_Some (py_int s)) = true.
Proof. intros H. apply bool_decide_eq_true_2. rewrite H. eauto. Qed.

(** Resolution once both parts of the index are known to be ints. *)
Lemma resolve_two_parts (index W I : string) (win_id idx : Z) (w : World) :
  py_split1 slash index = [W; I] ->
  py_int W = Some win_id -> py_int I = Some idx ->
  _resolve_buffer_index index w =
    match registry_lookup w win_id with
    | None =>
        (Raise (CommandError
           ("There's no window with id " ++ py_str win_id ++ "!")), w)
    | Some tabbed_browser =>
        if negb ((0 <? idx) && (idx <=? widget_count tabbed_browser)) then
          (Raise (CommandError
             ("There's no tab with index " ++ py_str idx ++ "!")), w)
        else (Ret (win_id, widget_at tabbed_browser (idx - 1)), w)
    end.
Proof.
  intros Hsplit HW HI.
  unfold _resolve_buffer_index. fold slash. rewrite Hsplit.
  cbv [forallb]. rewrite (is_int_true W win_id HW), (is_int_true I idx HI).
  cbv [andb]. run_steps. unfold int_or_raise. rewrite HW, HI.
  run_steps. cbv [fst snd].
  destruct (registry_lookup w win_id) as [tb|]; [|reflexivity].
  destruct (negb _); reflexivity.
Qed.

(** C7.  [buffer] with an index ["W/I"] whose two parts are ints (texts
    that [int()] accepts, the whitespace it skips included) raises a
    [CommandError] when no window has id [W] or when [I] is outside
    [[1, tab count of that window]], and otherwise activates and raises
    window [W] and makes its tab at 1-based position [I] the current one
    (the tabs of a window being distinct objects).  An index with a part
    that is not an int is handed to the completion model as a pattern:
    with no match "No matching tab" is raised, and otherwise the
    [win_id/index] of the first match is used in its place. *)
Theorem buffer_index_resolution (w : World) :
  (forall (W I : string) (win_id idx : Z),
     py_int W = Some win_id -> py_int I = Some idx ->
     let index := W ++ "/" ++ I in
     (registry_lookup w win_id = None ->
        buffer (Some index) None w =
          (Raise (CommandError
             ("There's no window with id " ++ py_str win_id ++ "!")), w)) /\
     (forall tb, registry_lookup w win_id = Some tb ->
        ~ (1 <= idx <= widget_count tb) ->
        buffer (Some index) None w =
          (Raise (CommandError
             ("There's no tab with index " ++ py_str idx ++ "!")), w)) /\
     (forall tb, registry_lookup w win_id = Some tb ->
        1 <= idx <= widget_count tb ->
        NoDup (map tab_id (tb_tabs tb)) ->
        exists w',
          buffer (Some index) None w = (Ret tt, w') /\
          registry_lookup w' win_id = Some (tb_with_current (idx - 1) tb) /\
          w_events w' =
            (w_events w ++
             [EvActivateWindow win_id; EvRaiseWindow win_id])%list)) /\
  (forall index : string,
     index_parseable index = false ->
     (buffer_model w index = [] ->
        buffer (Some index) None w =
          (Raise (CommandError ("No matching tab for: " ++ index)), w)) /\
     (forall first_item rest,
        buffer_model w index = first_item :: rest ->
        index_parseable first_item = true ->
        buffer (Some index) None w = buffer (Some first_item) None w)).
Proof.
  split.
  - intros W I win_id idx HW HI index.
    assert (Hsplit : py_split1 slash index = [W; I]).
    { subst index. apply split1_at_first_sep.
      exact (py_int_no_slash W win_id HW). }
    pose proof (resolve_two_parts index W I win_id idx w Hsplit HW HI) as Hres.
    split; [|split].
    + intros Hnone. rewrite Hnone in Hres.
      unfold buffer. unfold bind at 1. rewrite Hres. reflexivity.
    + intros tb Htb Hout. rewrite Htb in Hres.
      replace (negb ((0 <? idx) && (idx <=? widget_count tb))) with true in Hres.
      * unfold buffer. unfold bind at 1. rewrite Hres. reflexivity.
      * symmetry. apply negb_true_iff, andb_false_iff.
        destruct (Z_lt_dec 0 idx); [right; apply Z.leb_gt | left; apply Z.ltb_ge];
          lia.
    + intros tb Htb Hin Hnd. rewrite Htb in Hres.
      replace (negb ((0 <? idx) && (idx <=? widget_count tb))) with false in Hres.
      2:{ symmetry. apply negb_false_iff, andb_true_iff.
          split; [apply Z.ltb_lt | apply Z.leb_le]; lia. }
      destruct (widget_at_in_range tb (idx - 1)) as (t & Hat & Hl); [lia|].
      rewrite Hat in Hres.
      unfold buffer. unfold bind at 1. rewrite Hres. cbv [fst snd].
      run_steps.
      eexists. split; [apply surjective_pairing|].
      split.
      * rewrite registry_lookup_alter, !registry_lookup_with_events, Htb.
        change (Some (widget_set_current_widget (Some t) tb)
                = Some (tb_with_current (idx - 1) tb)).
        rewrite (set_current_widget_in_range tb _ t Hnd Hl).
        do 2 f_equal. lia.
      * unfold registry_alter. simpl.
        destruct (win_id =? _); simpl; rewrite <- app_assoc; reflexivity.
  - intros index Hnp. split.
    + intros Hnone. unfold buffer, _resolve_buffer_index. fold slash.
      fold (index_parseable index). rewrite Hnp.
      run_steps. rewrite Hnone. reflexivity.
    + intros first_item rest Hfirst Hp.
      unfold buffer, _resolve_buffer_index. fold slash.
      fold (index_parseable index) (index_parseable first_item).
      rewrite Hnp, Hp. run_steps. rewrite Hfirst. run_steps.
      rewrite ?bind_assoc. reflexivity.
Qed.

End Buffer.

Lemma buffer_index_resolution_witness :
  @buffer sample_collaborators (Some "2/3") None (world4 true SelectRightTab)
    = (Raise (CommandError "There's no window with id 2!"),
       world4 true SelectRightTab) /\
  (exists w',
     @buffer sample_collaborators (Some "2/3") None world_two_windows
       = (Ret tt, w') /\
     registry_lookup w' 2
       = Some (tb_with_current (3 - 1) (tb_with_current 0 browser4)) /\
     w_events w' = [EvActivateWindow 2; EvRaiseWindow 2]) /\
  @buffer sample_collaborators (Some "nothing") None world_two_windows
    = (Raise (CommandError "No matching tab for: nothing"), world_two_windows).
Proof.
  split; [|split].
  - destruct (proj1 (@buffer_index_resolution sample_collaborators
                       (world4 true SelectRightTab))
                    "2" "3" 2 3 eq_refl eq_refl) as (Hnone & _ & _).
    apply Hnone. reflexivity.
  - destruct (proj1 (@buffer_index_resolution sample_collaborators
                       world_two_windows)
                    "2" "3" 2 3 eq_refl eq_refl) as (_ & _ & Hin).
    apply (Hin (tb_with_current 0 browser4)).
    + reflexivity.
    + vm_compute. split; discriminate.
    + apply (bool_decide_unpack _). vm_compute. exact I.
  - destruct (proj2 (@buffer_index_resolution sample_collaborators
                       world_two_windows)
                    "nothing" eq_refl) as (Hnone & _).
    apply Hnone. reflexivity.
Defined.

(** * Further properties *)

(** ** tab_focus *)

Lemma index_of_absent (id : nat) (tabs : list Tab) :
  id ∉ map tab_id tabs -> index_of id tabs = -1.
Proof.
  induction tabs as [|t tabs IH]; [reflexivity|].
  intros Hnotin. simpl in *.
  apply not_elem_of_cons in Hnotin as [Hne Hnotin].
  destruct (Nat.eqb (tab_id t) id) eqn:E.
  - apply Nat.eqb_eq in E. congruence.
  - rewrite (IH Hnotin). reflexivity.
Qed.

Section TabFocus.
Context {registry : Registry}.

(** What [_tab_focus_last] does with a last-focused tab that sits at
    position [k] of the window. *)
Lemma tab_focus_last_found (w : World) (t : Tab) (k : nat)
    (show_error : bool) :
  widget_wf (w_browser w) ->
  NoDup (map tab_id (tb_tabs (w_browser w))) ->
  last_focused_tab w = Some t ->
  tb_tabs (w_browser w) !! k = Some t ->
  _tab_focus_last show_error w = (Ret tt, world_with_current (Z.of_nat k) w).
Proof.
  intros [Hmax _] Hnd Hlast Hk.
  unfold _tab_focus_last. run_steps. rewrite Hlast. run_steps.
  rewrite (index_of_lookup _ k t Hnd Hk).
  replace (Z.of_nat k =? -1) with false by (symmetry; apply Z.eqb_neq; lia).
  apply lookup_lt_Some in Hk.
  apply set_current_index_valid; unfold widget_count in *; lia.
Qed.

(** X1.  [tab_focus] with a negative index counts from the end: for
    [-tab_count <= i <= -1] the tab at position [tab_count + i] (0-based)
    becomes current, so [-1] is the last tab; below [-tab_count] a
    [CommandError] is raised and nothing changes.  The flag [no_last]
    plays no part. *)
Theorem tab_focus_negative_index (w : World) (i : Z) (no_last : bool) :
  widget_wf (w_browser w) ->
  i < 0 ->
  let n := widget_count (w_browser w) in
  (- n <= i ->
     tab_focus (Some (FocusInt i)) None no_last w
       = (Ret tt, world_with_current (n + i) w)) /\
  (i < - n ->
     tab_focus (Some (FocusInt i)) None no_last w
       = (Raise (CommandError
            ("There's no tab with index " ++ py_str (n + i + 1) ++ "!")), w)).
Proof.
  intros Hwf Hneg n. pose proof Hwf as [Hmax Hcur].
  assert (Htoggle : negb no_last && (i =? tb_current (w_browser w) + 1) = false).
  { replace (i =? tb_current (w_browser w) + 1) with false
      by (symmetry; apply Z.eqb_neq; lia).
    apply andb_false_r. }
  assert (Hlt : (i <? 0) = true) by (apply Z.ltb_lt; lia).
  split; intros Hi.
  - unfold tab_focus, _current_index, _count. run_steps.
    rewrite Htoggle, Hlt. run_steps. fold n.
    replace (1 <=? n + i + 1) with true by (symmetry; apply Z.leb_le; lia).
    replace (n + i + 1 <=? n) with true by (symmetry; apply Z.leb_le; lia).
    cbv [andb]. replace (n + i + 1 - 1) with (n + i) by lia.
    apply set_current_index_valid; subst n; lia.
  - unfold tab_focus, _current_index, _count. run_steps.
    rewrite Htoggle, Hlt. run_steps. fold n.
    replace (1 <=? n + i + 1) with false by (symmetry; apply Z.leb_gt; lia).
    reflexivity.
Qed.

(** X2.  [tab_focus] with an index [i >= 0] that is not the position of
    the current tab (or with [no_last] set) makes the tab at 1-based
    position [i] current when [1 <= i <= tab_count], and raises a
    [CommandError], leaving everything as it was, for every other [i],
    [0] included. *)
Theorem tab_focus_positive_index (w : World) (i : Z) (no_last : bool) :
  widget_wf (w_browser w) ->
  0 <= i ->
  no_last = true \/ i <> tb_current (w_browser w) + 1 ->
  let n := widget_count (w_browser w) in
  (1 <= i <= n ->
     tab_focus (Some (FocusInt i)) None no_last w
       = (Ret tt, world_with_current (i - 1) w)) /\
  (~ (1 <= i <= n) ->
     tab_focus (Some (FocusInt i)) None no_last w
       = (Raise (CommandError
            ("There's no tab with index " ++ py_str i ++ "!")), w)).
Proof.
  intros Hwf Hpos Hnt n. pose proof Hwf as [Hmax Hcur].
  assert (Htoggle : negb no_last && (i =? tb_current (w_browser w) + 1) = false).
  { destruct Hnt as [-> | Hne]; [reflexivity|].
    replace (i =? tb_current (w_browser w) + 1) with false
      by (symmetry; apply Z.eqb_neq; lia).
    apply andb_false_r. }
  assert (Hlt : (i <? 0) = false) by (apply Z.ltb_ge; lia).
  split; intros Hi.
  - unfold tab_focus, _current_index, _count. run_steps.
    rewrite Htoggle, Hlt. run_steps. fold n.
    replace (1 <=? i) with true by (symmetry; apply Z.leb_le; lia).
    replace (i <=? n) with true by (symmetry; apply Z.leb_le; lia).
    cbv [andb]. apply set_current_index_valid; subst n; lia.
  - unfold tab_focus, _current_index, _count. run_steps.
    rewrite Htoggle, Hlt. run_steps. fold n.
    destruct (1 <=? i) eqn:E1; [|reflexivity].
    destruct (i <=? n) eqn:E2; [|reflexivity].
    apply Z.leb_le in E1, E2. lia.
Qed.

(** X3.  [tab_focus] on the position of the tab that is already current
    (and without [no_last]) switches to the last-focused tab instead: it
    becomes current when it is still in the window; when no tab was
    focused before, nothing happens and no error is raised; when the tab
    is gone, a [CommandError] is raised. *)
Theorem tab_focus_current_goes_to_last (w : World) :
  widget_wf (w_browser w) ->
  NoDup (map tab_id (tb_tabs (w_browser w))) ->
  let here := Some (FocusInt (tb_current (w_browser w) + 1)) in
  (last_focused_tab w = None -> tab_focus here None false w = (Ret tt, w)) /\
  (forall t k, last_focused_tab w = Some t ->
     tb_tabs (w_browser w) !! k = Some t ->
     tab_focus here None false w
       = (Ret tt, world_with_current (Z.of_nat k) w)) /\
  (forall t, last_focused_tab w = Some t ->
     tab_id t ∉ map tab_id (tb_tabs (w_browser w)) ->
     tab_focus here None false w
       = (Raise (CommandError "Last focused tab vanished!"), w)).
Proof.
  intros Hwf Hnd here.
  assert (Hstep : tab_focus here None false w = _tab_focus_last false w).
  { unfold tab_focus, here, _current_index. run_steps.
    rewrite Z.eqb_refl. reflexivity. }
  rewrite Hstep. split; [|split].
  - intros Hlast. unfold _tab_focus_last. run_steps. rewrite Hlast.
    reflexivity.
  - intros t k Hlast Hk. exact (tab_focus_last_found w t k false Hwf Hnd Hlast Hk).
  - intros t Hlast Habsent. unfold _tab_focus_last. run_steps. rewrite Hlast.
    run_steps. rewrite (index_of_absent _ _ Habsent). reflexivity.
Qed.

(** X4.  [tab_focus last] raises "No last focused tab!" when no tab was
    focused before, and otherwise makes the last-focused tab current; a
    count, when given, wins over ['last']. *)
Theorem tab_focus_last_index (w : World) :
  widget_wf (w_browser w) ->
  NoDup (map tab_id (tb_tabs (w_browser w))) ->
  (last_focused_tab w = None ->
     tab_focus (Some FocusLast) None false w
       = (Raise (CommandError "No last focused tab!"), w)) /\
  (forall t k, last_focused_tab w = Some t ->
     tb_tabs (w_browser w) !! k = Some t ->
     tab_focus (Some FocusLast) None false w
       = (Ret tt, world_with_current (Z.of_nat k) w)) /\
  (forall c no_last,
     tab_focus (Some FocusLast) (Some c) no_last w
       = tab_focus (Some (FocusInt c)) None no_last w).
Proof.
  intros Hwf Hnd. split; [|split].
  - intros Hlast. unfold tab_focus, _tab_focus_last. run_steps.
    rewrite Hlast. reflexivity.
  - intros t k Hlast Hk. exact (tab_focus_last_found w t k true Hwf Hnd Hlast Hk).
  - reflexivity.
Qed.

End TabFocus.

(** ** tab_move, relative mode and invariants *)

(** The relative target of [tab_move]: [cur + delta] or [cur - delta],
    where [delta] is the count, 1 by default. *)
Lemma tab_move_relative_unfold (w : World) (plus : bool) (count : option Z) :
  tab_move (Some (if plus then IdxPlus else IdxMinus)) count w =
    let cur := tb_current (w_browser w) in
    let delta := match count with None => 1 | Some c => c end in
    let new_idx := if plus then cur + delta else cur - delta in
    (let* new_idx :=
       if cfg_tabs_wrap (w_config w)
       then py_mod new_idx (widget_count (w_browser w))
       else ret new_idx in
     let* n := _count in
     if negb ((0 <=? new_idx) && (new_idx <? n)) then
       raise (CommandError
         ("Can't move tab to position " ++ py_str (new_idx + 1) ++ "!"))
     else
       let* cur_idx := _current_index in
       do check_overflow cur_idx then
       do check_overflow new_idx then
       let* tb := get_browser in
       set_browser (widget_move_tab cur_idx new_idx tb)) w.
Proof.
  destruct plus; unfold tab_move, _current_index; cbv zeta;
    rewrite !bind_assoc, bind_get_browser, bind_ret_l, bind_assoc,
      bind_get_config;
    destruct (cfg_tabs_wrap (w_config w));
    rewrite ?bind_assoc, ?bind_count; reflexivity.
Qed.

(** X5.  With [tabs.wrap] set and at least one tab, a relative
    [tab_move] never fails: the current tab goes to position
    [(current + delta) mod tab_count] for ['+'] and
    [(current - delta) mod tab_count] for ['-'], whatever the count. *)
Theorem tab_move_relative_wraps (w : World) (plus : bool) (count : option Z) :
  widget_wf (w_browser w) ->
  0 < widget_count (w_browser w) ->
  cfg_tabs_wrap (w_config w) = true ->
  let n := widget_count (w_browser w) in
  let cur := tb_current (w_browser w) in
  let delta := match count with None => 1 | Some c => c end in
  let target := (if plus then cur + delta else cur - delta) mod n in
  0 <= target < n /\
  tab_move (Some (if plus then IdxPlus else IdxMinus)) count w
    = (Ret tt, world_with_browser (widget_move_tab cur target (w_browser w)) w).
Proof.
  intros Hwf Hpos Hwrap n cur delta target.
  assert (Ht : 0 <= target < n) by (apply Z.mod_pos_bound; exact Hpos).
  split; [exact Ht|].
  rewrite tab_move_relative_unfold. cbv zeta. rewrite Hwrap.
  unfold py_mod. fold n.
  replace (n =? 0) with false by (symmetry; apply Z.eqb_neq; lia).
  rewrite bind_ret_l.
  exact (tab_move_performed w target Hwf Ht).
Qed.

(** X6.  Without [tabs.wrap], a relative [tab_move] moves the current tab
    to [current + delta] (or [current - delta]) when that position
    exists, and raises a [CommandError], moving nothing, when it lies
    beyond either end. *)
Theorem tab_move_relative_bounded (w : World) (plus : bool)
    (count : option Z) :
  widget_wf (w_browser w) ->
  cfg_tabs_wrap (w_config w) = false ->
  let n := widget_count (w_browser w) in
  let cur := tb_current (w_browser w) in
  let delta := match count with None => 1 | Some c => c end in
  let target := if plus then cur + delta else cur - delta in
  (0 <= target < n ->
     tab_move (Some (if plus then IdxPlus else IdxMinus)) count w
       = (Ret tt,
          world_with_browser (widget_move_tab cur target (w_browser w)) w)) /\
  (~ (0 <= target < n) ->
     tab_move (Some (if plus then IdxPlus else IdxMinus)) count w
       = (Raise (CommandError
            ("Can't move tab to position " ++ py_str (target + 1) ++ "!")), w)).
Proof.
  intros Hwf Hwrap n cur delta target.
  split; intros Ht; rewrite tab_move_relative_unfold; cbv zeta;
    rewrite Hwrap, bind_ret_l.
  - exact (tab_move_performed w target Hwf Ht).
  - apply tab_move_refused. exact Ht.
Qed.

(** X7.  In a window without tabs and with [tabs.wrap] set, a relative
    [tab_move] does not end in a [CommandError]: the modulo by the tab
    count raises [ZeroDivisionError]. *)
Theorem tab_move_relative_no_tabs (w : World) (plus : bool)
    (count : option Z) :
  widget_count (w_browser w) = 0 ->
  cfg_tabs_wrap (w_config w) = true ->
  tab_move (Some (if plus then IdxPlus else IdxMinus)) count w
    = (Raise ZeroDivisionError, w).
Proof.
  intros Hn Hwrap. rewrite tab_move_relative_unfold. cbv zeta.
  rewrite Hwrap, Hn. reflexivity.
Qed.

Lemma list_move_lookup {A} (from to : nat) (l : list A) :
  (from < length l)%nat -> (to < length l)%nat ->
  list_move from to l !! to = l !! from.
Proof.
  intros Hfrom Hto. unfold list_move.
  destruct (l !! from) as [x|] eqn:Hx.
  - assert (Hlen : length (take to (delete from l)) = to).
    { rewrite length_take, length_delete by eauto. lia. }
    rewrite lookup_app_r by lia. rewrite Hlen, Nat.sub_diag. reflexivity.
  - apply lookup_ge_None in Hx. lia.
Qed.

Lemma list_move_perm {A} (from to : nat) (l : list A) :
  list_move from to l ≡ₚ l.
Proof.
  unfold list_move. destruct (l !! from) as [x|] eqn:Hx; [|reflexivity].
  rewrite <- Permutation_middle, take_drop.
  symmetry. apply delete_Permutation. exact Hx.
Qed.

Lemma widget_move_tab_perm (from to : Z) (tb : TabbedBrowser) :
  tb_tabs (widget_move_tab from to tb) ≡ₚ tb_tabs tb.
Proof.
  unfold widget_move_tab. destruct (_ || _); [reflexivity|].
  simpl. apply list_move_perm.
Qed.

Lemma widget_move_tab_keeps_current (to : Z) (tb : TabbedBrowser) :
  widget_current (widget_move_tab (tb_current tb) to tb) = widget_current tb.
Proof.
  unfold widget_move_tab.
  destruct (tb_current tb =? to) eqn:Eeq; [reflexivity|].
  destruct ((0 <=? tb_current tb) && (tb_current tb <? widget_count tb))
    eqn:Efrom; [|reflexivity].
  destruct ((0 <=? to) && (to <? widget_count tb)) eqn:Eto; [|reflexivity].
  cbv [negb orb]. rewrite Z.eqb_refl.
  apply andb_true_iff in Efrom as [Hf1 Hf2].
  apply andb_true_iff in Eto as [Ht1 Ht2].
  apply Z.leb_le in Hf1, Ht1. apply Z.ltb_lt in Hf2, Ht2.
  unfold widget_count in *.
  unfold widget_current, widget_at. simpl.
  replace (to <? 0) with false by (symmetry; apply Z.ltb_ge; lia).
  replace (tb_current tb <? 0) with false by (symmetry; apply Z.ltb_ge; lia).
  apply list_move_lookup; lia.
Qed.

(** A [tab_move] that returns has moved the current tab, and done nothing
    else. *)
Lemma tab_move_finish_ret (w w' : World) (new_idx : Z) :
  (let* n := _count in
   if negb ((0 <=? new_idx) && (new_idx <? n)) then
     raise (CommandError
       ("Can't move tab to position " ++ py_str (new_idx + 1) ++ "!"))
   else
     let* cur_idx := _current_index in
     do check_overflow cur_idx then
     do check_overflow new_idx then
     let* tb := get_browser in
     set_browser (widget_move_tab cur_idx new_idx tb)) w = (Ret tt, w') ->
  w' = world_with_browser
         (widget_move_tab (tb_current (w_browser w)) new_idx (w_browser w)) w.
Proof.
  unfold _count, _current_index, check_overflow. run_steps.
  destruct (negb _); [unfold raise; discriminate|].
  run_steps.
  destruct (_ && _); run_steps; [|discriminate].
  destruct (_ && _); run_steps; [|discriminate].
  unfold set_browser, world_with_browser.
  intros H. injection H as <-. reflexivity.
Qed.

Lemma tab_move_ret (w w' : World) (index : option MoveIndex)
    (count : option Z) :
  tab_move index count w = (Ret tt, w') ->
  exists new_idx,
    w' = world_with_browser
           (widget_move_tab (tb_current (w_browser w)) new_idx (w_browser w))
           w.
Proof.
  assert (Hrel : forall plus : bool,
    tab_move (Some (if plus then IdxPlus else IdxMinus)) count w = (Ret tt, w') ->
    exists new_idx,
      w' = world_with_browser
             (widget_move_tab (tb_current (w_browser w)) new_idx (w_browser w))
             w).
  { intros plus. rewrite tab_move_relative_unfold. cbv zeta.
    destruct (cfg_tabs_wrap (w_config w)).
    - unfold py_mod. destruct (_ =? 0); [rewrite bind_raise; discriminate|].
      rewrite bind_ret_l. intros H. eexists. exact (tab_move_finish_ret _ _ _ H).
    - rewrite bind_ret_l. intros H. eexists. exact (tab_move_finish_ret _ _ _ H). }
  destruct index as [[| |i]|].
  - exact (Hrel true).
  - exact (Hrel false).
  - unfold tab_move. destruct count as [c|].
    + rewrite bind_ret_l. intros H. eexists. exact (tab_move_finish_ret _ _ _ H).
    + destruct (i >=? 0).
      * rewrite bind_ret_l. intros H. eexists.
        exact (tab_move_finish_ret _ _ _ H).
      * rewrite bind_assoc, bind_count, bind_ret_l. intros H. eexists.
        exact (tab_move_finish_ret _ _ _ H).
  - unfold tab_move. destruct count as [c|];
      rewrite bind_ret_l; intros H; eexists;
      exact (tab_move_finish_ret _ _ _ H).
Qed.

(** X8.  Whatever its arguments, a [tab_move] that returns keeps the tabs
    of the window (the new sequence is a permutation of the old one),
    keeps the moved tab current, and touches nothing else: no call is
    made into another collaborator, and the other windows and the
    configuration stay as they were. *)
Theorem tab_move_keeps_tabs (w w' : World) (index : option MoveIndex)
    (count : option Z) :
  tab_move index count w = (Ret tt, w') ->
  tb_tabs (w_browser w') ≡ₚ tb_tabs (w_browser w) /\
  widget_current (w_browser w') = widget_current (w_browser w) /\
  w_events w' = w_events w /\
  w_others w' = w_others w /\
  w_config w' = w_config w.
Proof.
  intros H. destruct (tab_move_ret _ _ _ _ H) as [new_idx ->]. simpl.
  split; [apply widget_move_tab_perm|].
  split; [apply widget_move_tab_keeps_current|].
  repeat split.
Qed.

(** ** _tab_close and tab_pin *)

Lemma tb_select_on_remove_restored (a b : SelectionBehavior)
    (tb : TabbedBrowser) :
  tb_select_on_remove tb = a ->
  tb_with_select_on_remove a (tb_with_select_on_remove b tb) = tb.
Proof. intros <-. destruct tb; reflexivity. Qed.

Lemma world_with_same_browser (w : World) :
  world_with_browser (w_browser w) w = w.
Proof. destruct w; reflexivity. Qed.

(** X9.  [_tab_close] closes the tab once, with the tab bar selecting the
    left neighbour for [prev], the right one for [next_], the inverse of
    the configured side for [opposite], and whatever the bar is set to
    when no flag is given; afterwards the bar's selection behaviour is
    what it was before.  When the flags are rejected, nothing is
    closed. *)
Theorem tab_close_selection_restored (w : World) (tab : Tab)
    (prev next_ opposite : bool) :
  let closed_with sel :=
    (Ret tt, world_with_events [EvCloseTab (tab_id tab) sel] w) in
  match _get_selection_override prev next_ opposite w with
  | (Ret (Some sel), _) =>
      _tab_close tab prev next_ opposite w = closed_with sel
  | (Ret None, _) =>
      _tab_close tab prev next_ opposite w
        = closed_with (tb_select_on_remove (w_browser w))
  | (Raise e, _) =>
      _tab_close tab prev next_ opposite w = (Raise e, w)
  end /\
  (prev = true -> next_ = false -> opposite = false ->
   _tab_close tab prev next_ opposite w = closed_with SelectLeftTab) /\
  (prev = false -> next_ = true -> opposite = false ->
   _tab_close tab prev next_ opposite w = closed_with SelectRightTab).
Proof.
  cbv zeta.
  assert (Hsome : forall sel,
    _get_selection_override prev next_ opposite w = (Ret (Some sel), w) ->
    _tab_close tab prev next_ opposite w
      = (Ret tt, world_with_events [EvCloseTab (tab_id tab) sel] w)).
  { intros sel Hov. unfold _tab_close. unfold bind at 1. rewrite Hov.
    unfold setSelectionBehaviorOnRemove, close_tab. run_steps.
    unfold set_browser, world_with_events, world_with_browser. simpl.
    rewrite tb_select_on_remove_restored by reflexivity. reflexivity. }
  assert (Hstate : snd (_get_selection_override prev next_ opposite w) = w).
  { unfold _get_selection_override, check_exclusive, get_config, bind, ret,
      raise.
    destruct prev, next_, opposite; simpl; try reflexivity.
    destruct (cfg_select_on_remove (w_config w)); reflexivity. }
  split; [|split].
  - destruct (_get_selection_override prev next_ opposite w)
      as [[[sel|]|e] w0] eqn:Hov; simpl in Hstate; subst w0.
    + exact (Hsome sel eq_refl).
    + unfold _tab_close. unfold bind at 1. rewrite Hov.
      unfold close_tab. run_steps. reflexivity.
    + unfold _tab_close. unfold bind at 1. rewrite Hov. reflexivity.
  - intros -> -> ->. apply Hsome. reflexivity.
  - intros -> -> ->. apply Hsome. reflexivity.
Qed.

Lemma map_update_restores (tabs : list Tab) (k : nat) (t : Tab)
    (f : Tab -> Tab) :
  NoDup (map tab_id tabs) ->
  tabs !! k = Some t ->
  f t = t ->
  map (fun x => if Nat.eqb (tab_id x) (tab_id t) then f x else x) tabs = tabs.
Proof.
  intros Hnd Hk Hf.
  rewrite <- (map_id tabs) at 2. apply map_ext_in.
  intros x Hx. destruct (Nat.eqb (tab_id x) (tab_id t)) eqn:E; [|reflexivity].
  apply Nat.eqb_eq in E.
  apply list_elem_of_In, list_elem_of_lookup in Hx as [j Hj].
  assert (j = k).
  { eapply NoDup_lookup; [exact Hnd | |].
    - rewrite lookup_map, Hj. reflexivity.
    - rewrite lookup_map, Hk. simpl. f_equal. symmetry. exact E. }
  subst j. rewrite Hj in Hk. injection Hk as ->. exact Hf.
Qed.

Lemma cntwidget_at (w : World) (count : option Z) (k : nat) (t : Tab) :
  widget_count (w_browser w) < INT_MAX ->
  tb_tabs (w_browser w) !! k = Some t ->
  (count = None /\ tb_current (w_browser w) = Z.of_nat k) \/
  count = Some (Z.of_nat k + 1) ->
  _cntwidget count w = (Ret (Some t), w).
Proof.
  intros Hmax Hk Hcount.
  assert (Hat : widget_at (w_browser w) (Z.of_nat k) = Some t).
  { unfold widget_at.
    replace (Z.of_nat k <? 0) with false by (symmetry; apply Z.ltb_ge; lia).
    rewrite Nat2Z.id. exact Hk. }
  destruct Hcount as [[-> Hcur] | ->].
  - unfold _cntwidget, widget_current. run_steps. rewrite Hcur, Hat.
    reflexivity.
  - destruct int_bounds as [Hmin HMAX].
    apply lookup_lt_Some in Hk as Hlt.
    unfold _cntwidget, _count. run_steps. unfold widget_count in *.
    replace (1 <=? Z.of_nat k + 1) with true by (symmetry; apply Z.leb_le; lia).
    replace (Z.of_nat k + 1 <=? Z.of_nat (length (tb_tabs (w_browser w))))
      with true by (symmetry; apply Z.leb_le; lia).
    cbv [andb]. unfold bind at 1. rewrite check_overflow_ok by lia.
    run_steps.
    replace (Z.of_nat k + 1 - 1) with (Z.of_nat k) by lia.
    rewrite Hat. reflexivity.
Qed.

(** X10.  [tab_pin] toggles: it asks the container to give the tab that
    [_cntwidget] resolves the opposite of its pinned flag.  Called twice
    in a row with the same count it asks first for the opposite and then
    for the original value, and the window ends with every tab as it
    was. *)
Theorem tab_pin_twice (w : World) (count : option Z) (k : nat) (t : Tab) :
  widget_count (w_browser w) < INT_MAX ->
  NoDup (map tab_id (tb_tabs (w_browser w))) ->
  tb_tabs (w_browser w) !! k = Some t ->
  (count = None /\ tb_current (w_browser w) = Z.of_nat k) \/
  count = Some (Z.of_nat k + 1) ->
  exists w1,
    tab_pin count w = (Ret tt, w1) /\
    (tab_pinned <$> tb_tabs (w_browser w1) !! k)
      = Some (negb (tab_pinned t)) /\
    tab_pin count w1
      = (Ret tt,
         world_with_events
           [EvSetTabPinned (tab_id t) (negb (tab_pinned t));
            EvSetTabPinned (tab_id t) (tab_pinned t)] w).
Proof.
  intros Hmax Hnd Hk Hcount.
  set (pin := fun (b : bool) (x : Tab) =>
         mkTab (tab_id x) b (tab_search_text x) (tab_search_displayed x)
               (tab_pos_px x)).
  set (upd := fun (b : bool) (x : Tab) =>
         if Nat.eqb (tab_id x) (tab_id t) then pin b x else x).
  set (tb1 := tb_with_tabs (map (upd (negb (tab_pinned t)))
                              (tb_tabs (w_browser w))) (w_browser w)).
  set (w1 := world_with_events
               [EvSetTabPinned (tab_id t) (negb (tab_pinned t))]
               (world_with_browser tb1 w)).
  assert (Hk1 : tb_tabs (w_browser w1) !! k = Some (pin (negb (tab_pinned t)) t)).
  { subst w1 tb1. simpl. rewrite lookup_map, Hk. simpl. unfold upd.
    rewrite Nat.eqb_refl. reflexivity. }
  exists w1. split; [|split].
  - unfold tab_pin. unfold bind at 1.
    rewrite (cntwidget_at w count k t Hmax Hk Hcount).
    unfold set_tab_pinned, update_tab. run_steps. reflexivity.
  - rewrite Hk1. reflexivity.
  - assert (Hmax1 : widget_count (w_browser w1) < INT_MAX).
    { subst w1 tb1. unfold widget_count in *. simpl. rewrite length_map.
      exact Hmax. }
    assert (Hcount1 :
      (count = None /\ tb_current (w_browser w1) = Z.of_nat k) \/
      count = Some (Z.of_nat k + 1)) by exact Hcount.
    unfold tab_pin. unfold bind at 1.
    rewrite (cntwidget_at w1 count k _ Hmax1 Hk1 Hcount1).
    unfold set_tab_pinned, update_tab. run_steps.
    unfold world_with_events, world_with_browser. simpl.
    rewrite negb_involutive, <- app_assoc. simpl.
    f_equal. f_equal.
    rewrite map_map.
    assert (Hmap :
      map (fun x => if Nat.eqb (tab_id (upd (negb (tab_pinned t)) x)) (tab_id t)
                    then pin (tab_pinned t) (upd (negb (tab_pinned t)) x)
                    else upd (negb (tab_pinned t)) x)
          (tb_tabs (w_browser w))
      = tb_tabs (w_browser w)).
    { erewrite map_ext.
      - apply (map_update_restores _ k t (pin (tab_pinned t)) Hnd Hk).
        destruct t; reflexivity.
      - intros x. unfold upd.
        destruct (Nat.eqb (tab_id x) (tab_id t)) eqn:E; simpl; rewrite E;
          reflexivity. }
    subst tb1.
    transitivity (tb_with_tabs (tb_tabs (w_browser w)) (w_browser w));
      [|destruct (w_browser w); reflexivity].
    unfold tb_with_tabs. simpl. f_equal. exact Hmap.
Qed.

(** ** _open and openurl *)

(** X11.  Where [_open] sends a valid URL: [tab] opens a foreground tab
    and [background] a background tab, both positioned by [related];
    [window] opens the URL in a new window that inherits the private
    mode of the current one unless [private] is given; [private] alone
    opens a new private window; with no flag the URL is loaded in the
    current tab, and a [CommandError] is raised when there is none. *)
Theorem open_destination (url : QUrl) (related : bool) (w : World) :
  qurl_valid url = true ->
  let done evs := (Ret tt, world_with_events evs w) in
  _open url true false false related None w
    = done [EvTabOpen false url (Some false) (Some related)] /\
  _open url false true false related None w
    = done [EvTabOpen false url (Some true) (Some related)] /\
  _open url false false true related None w
    = done [EvNewWindow (Some (tb_private (w_browser w)));
            EvTabOpen true url None None] /\
  _open url false false true related (Some false) w
    = done [EvNewWindow (Some false); EvTabOpen true url None None] /\
  _open url false false false related (Some true) w
    = done [EvNewWindow (Some true); EvTabOpen true url None None] /\
  (forall p, p <> Some true ->
    _open url false false false related p w
    = match widget_current (w_browser w) with
      | Some tab => done [EvOpenUrl (tab_id tab) url]
      | None => (Raise (CommandError "No WebView available yet!"), w)
      end).
Proof.
  intros Hvalid. cbv zeta.
  unfold _open, raise_cmdexc_if_invalid, check_exclusive, _new_tabbed_browser,
    _current_widget.
  rewrite Hvalid.
  split; [reflexivity|]. split; [reflexivity|].
  split; [simpl; run_steps; simpl; run_steps;
          rewrite world_with_events_app; reflexivity|].
  split; [simpl; run_steps; simpl; run_steps;
          rewrite world_with_events_app; reflexivity|].
  split; [simpl; run_steps; simpl; run_steps;
          rewrite world_with_events_app; reflexivity|].
  intros p Hp. destruct p as [[|]|]; [congruence|..]; simpl; run_steps;
    destruct (widget_current (w_browser w)); reflexivity.
Qed.

Section OpenUrl.
Context {collab : Collaborators}.

(** X12.  [openurl] of one QUrl with no destination flag (or of no URL
    at all, which stands for the default page) acts on the tab that
    [_cntwidget] resolves: it loads the URL there; on a pinned tab it
    only says "Tab is pinned!"; with no count and no tab in the window it
    opens a tab; with a count that names no tab it does nothing.  The
    URL is not checked for validity on this path. *)
Theorem openurl_in_current_tab (url : option QUrl) (related : bool)
    (count : option Z) (r : option Tab) (w : World) :
  _cntwidget count w = (Ret r, w) ->
  let target := match url with
                | Some u => u
                | None => cfg_default_page (w_config w)
                end in
  openurl (UrlQ <$> url) related false false false count false false w =
    (Ret tt,
     match r, count with
     | Some tab, _ =>
         if tab_pinned tab
         then world_with_events [EvMessageInfo "Tab is pinned!"] w
         else world_with_events [EvOpenUrl (tab_id tab) target] w
     | None, None => world_with_events [EvTabOpen false target None None] w
     | None, Some _ => w
     end).
Proof.
  intros Hcnt target.
  assert (Hloop :
    openurl_loop [ret (Some target)] 0 related false false false count false
                 false w
    = (Ret tt,
       match r, count with
       | Some tab, _ =>
           if tab_pinned tab
           then world_with_events [EvMessageInfo "Tab is pinned!"] w
           else world_with_events [EvOpenUrl (tab_id tab) target] w
       | None, None => world_with_events [EvTabOpen false target None None] w
       | None, Some _ => w
       end)).
  { cbn [openurl_loop]. rewrite bind_ret_l. cbv [negb andb orb Nat.ltb Nat.leb].
    unfold bind at 1. rewrite Hcnt.
    destruct r as [tab|]; [destruct (tab_pinned tab)|destruct count];
      run_steps; reflexivity. }
  destruct url as [u|]; simpl; [exact Hloop|].
  unfold openurl. run_steps. exact Hloop.
Qed.

Lemma open_background (u : QUrl) (related : bool) (w : World) :
  qurl_valid u = true ->
  _open u false true false related (Some false) w
    = (Ret tt, world_with_events [EvTabOpen false u (Some true) (Some related)] w).
Proof.
  intros Hvalid.
  unfold _open, raise_cmdexc_if_invalid, check_exclusive. rewrite Hvalid.
  reflexivity.
Qed.

Lemma parse_url_resolved (line : string) (u : QUrl) (w : World) :
  resolved_url false line = Some u ->
  _parse_url line false w = (Ret (Some u), w).
Proof.
  unfold resolved_url, _parse_url.
  destruct (quickmark_get line); [intros [= ->]; reflexivity|].
  destruct (fuzzy_url line false); [intros [= ->]; reflexivity | discriminate].
Qed.

(** Every URL after the first one goes to a background tab. *)
Lemma openurl_loop_rest (lines : list string) (urls : list QUrl) (i : nat)
    (related bg tab : bool) (count : option Z) (w : World) :
  Forall2 (fun line u => resolved_url false line = Some u /\
                         qurl_valid u = true) lines urls ->
  openurl_loop (map (fun line => _parse_url line false) lines) (S i)
               related bg tab false count false false w
  = (Ret tt,
     world_with_events
       (map (fun u => EvTabOpen false u (Some true) (Some related)) urls) w).
Proof.
  intros Hres. revert i bg tab w.
  induction Hres as [|line u lines urls [Hline Hvalid] _ IH]; intros i bg tab w.
  - simpl. rewrite world_with_events_nil. reflexivity.
  - cbn [map openurl_loop]. unfold bind at 1.
    rewrite (parse_url_resolved line u w Hline).
    cbv [negb andb orb Nat.ltb Nat.leb]. unfold bind at 1.
    rewrite (open_background u related w Hvalid).
    rewrite IH, world_with_events_app. reflexivity.
Qed.

(** X13.  [openurl] of a text with several lines, the first non-blank
    one a URL and all of them resolving to valid URLs: with [tab] the
    first URL opens in a foreground tab, with [bg] in a background tab,
    and every further URL opens in a background tab of its own, in the
    order of the lines.  Lines that [str.strip] empties are skipped. *)
Theorem openurl_lines_in_tabs (url first : string) (rest : list string)
    (u : QUrl) (urls : list QUrl) (related bg tab : bool)
    (count : option Z) (w : World) :
  nonblank_lines url = first :: rest ->
  is_url first = true ->
  Forall2 (fun line u => resolved_url false line = Some u /\
                         qurl_valid u = true) (first :: rest) (u :: urls) ->
  xorb tab bg = true ->
  openurl (Some (UrlS url)) related bg tab false count false false w
  = (Ret tt,
     world_with_events
       (EvTabOpen false u (Some bg) (Some related) ::
        map (fun u => EvTabOpen false u (Some true) (Some related)) urls) w).
Proof.
  intros Hlines Hurl Hres Hflag.
  apply Forall2_cons in Hres as [[Hfirst Hvalid] Hrest].
  unfold openurl, _parse_url_input. fold (nonblank_lines url).
  rewrite Hlines.
  assert (Hcond : (match first :: rest with
                   | first0 :: _ :: _ =>
                       negb (is_url first0) &&
                       match get_path_if_valid first0 with
                       | None => true | _ => false end
                   | _ => false
                   end) = false).
  { destruct rest; [reflexivity|]. rewrite Hurl. reflexivity. }
  rewrite Hcond. cbn [map openurl_loop]. unfold bind at 1.
  rewrite (parse_url_resolved first u w Hfirst).
  cbv [negb andb Nat.ltb Nat.leb].
  assert (Hopen :
    _open u tab bg false related (Some false) w
    = (Ret tt,
       world_with_events [EvTabOpen false u (Some bg) (Some related)] w)).
  { unfold _open, raise_cmdexc_if_invalid, check_exclusive. rewrite Hvalid.
    destruct tab, bg; try discriminate Hflag; reflexivity. }
  replace (tab || bg || false || false) with true
    by (destruct tab, bg; try discriminate Hflag; reflexivity).
  unfold bind at 1. rewrite Hopen.
  rewrite (openurl_loop_rest rest urls 0 related _ _ count _ Hrest).
  rewrite world_with_events_app. reflexivity.
Qed.

Lemma lstrip_all_space (space : ascii -> bool) (s : string) :
  Forall (fun c => space c = true) (list_ascii_of_string s) ->
  lstrip space s = EmptyString.
Proof.
  induction s as [|c s IH]; [reflexivity|]. simpl. intros H.
  apply Forall_cons in H as [-> Hs]. exact (IH Hs).
Qed.

Lemma split_pieces (sep : ascii) (s : string) :
  Forall (fun piece =>
            forall c, In c (list_ascii_of_string piece) ->
                      In c (list_ascii_of_string s))
         (py_split sep s).
Proof.
  induction s as [|c s IH]; simpl.
  - constructor; [tauto | constructor].
  - destruct (Ascii.eqb c sep).
    + constructor; [simpl; tauto|].
      eapply Forall_impl; [exact IH|]. simpl. intros piece H a Ha. auto.
    + destruct (py_split sep s) as [|piece pieces].
      * constructor; [simpl; tauto | constructor].
      * apply Forall_cons in IH as [Hp Hps].
        constructor.
        -- simpl. intros a [-> | Ha]; [tauto | right; auto].
        -- eapply Forall_impl; [exact Hps|]. simpl. intros q H a Ha. auto.
Qed.

(** X14.  [openurl] of a text that holds nothing but whitespace (the
    empty text included) does nothing at all, whatever the flags and the
    count: no line is resolved and nothing is opened. *)
Theorem openurl_blank_text (url : string) (related bg tab window : bool)
    (count : option Z) (secure private : bool) (w : World) :
  Forall (fun c => py_isspace c = true) (list_ascii_of_string url) ->
  nonblank_lines url = [] /\
  openurl (Some (UrlS url)) related bg tab window count secure private w
    = (Ret tt, w).
Proof.
  intros Hblank.
  assert (Hlines : nonblank_lines url = []).
  { unfold nonblank_lines.
    pose proof (split_pieces "010"%char url) as Hpieces.
    induction Hpieces as [|piece pieces Hp _ IH]; [reflexivity|].
    simpl. rewrite IH.
    assert (Hstrip : py_strip piece = EmptyString).
    { unfold py_strip. rewrite lstrip_all_space; [reflexivity|].
      apply Forall_forall. intros c Hc.
      rewrite Forall_forall in Hblank. apply Hblank.
      apply list_elem_of_In, Hp, list_elem_of_In. exact Hc. }
    rewrite Hstrip. reflexivity. }
  split; [exact Hlines|].
  unfold openurl, _parse_url_input. fold (nonblank_lines url).
  rewrite Hlines. reflexivity.
Qed.

End OpenUrl.

(** ** search and its continuations *)

(** X15.  [search] with an empty text never touches the search text and
    options stored in the window and never issues a search: it sets the
    ['] mark, then clears the highlighting if the current tab shows one.
    Without a current tab it raises a [CommandError], after the mark has
    been set. *)
Theorem search_empty_text (reverse : bool) (w : World) :
  let r := search "" reverse w in
  fst r = match widget_current (w_browser w) with
          | Some _ => Ret tt
          | None => Raise (CommandError "No WebView available yet!")
          end /\
  w_events (snd r) =
    (w_events w ++
     EvSetMark "'" ::
     match widget_current (w_browser w) with
     | Some tab =>
         if tab_search_displayed tab then [EvSearchClear (tab_id tab)] else []
     | None => []
     end)%list /\
  tb_search_text (w_browser (snd r)) = tb_search_text (w_browser w) /\
  tb_search_options (w_browser (snd r)) = tb_search_options (w_browser w) /\
  tab_search_text <$> tb_tabs (w_browser (snd r))
    = tab_search_text <$> tb_tabs (w_browser w).
Proof.
  cbv zeta.
  assert (Hrun : search "" reverse w =
    match widget_current (w_browser w) with
    | None =>
        (Raise (CommandError "No WebView available yet!"),
         world_with_events [EvSetMark "'"] w)
    | Some tab =>
        if tab_search_displayed tab then
          (Ret tt,
           world_with_events [EvSearchClear (tab_id tab)]
             (snd (update_tab (tab_id tab)
                     (fun t => mkTab (tab_id t) (tab_pinned t)
                                     (tab_search_text t) false (tab_pos_px t))
                     (world_with_events [EvSetMark "'"] w))))
        else (Ret tt, world_with_events [EvSetMark "'"] w)
    end).
  { unfold search, set_mark, _current_widget, tab_search_clear. run_steps.
    simpl w_browser. destruct (widget_current (w_browser w)) as [tab|];
      run_steps; [|reflexivity].
    cbv [py_truthy negb]. destruct (tab_search_displayed tab); [|reflexivity].
    unfold update_tab. run_steps. reflexivity. }
  rewrite Hrun.
  destruct (widget_current (w_browser w)) as [tab|];
    [destruct (tab_search_displayed tab)|]; simpl;
    rewrite <- ?app_assoc; repeat split.
  rewrite <- list_fmap_compose. apply list_fmap_ext.
  intros i t _. simpl. destruct (Nat.eqb _ _); reflexivity.
Qed.

(** X16.  [search] with a non-empty text in a window with a current tab
    stores the text in the window together with the options it searched
    with, [reverse] as given and [ignore_case] from the configuration,
    and the searched tab remembers the text. *)
Theorem search_stores_text (text : string) (reverse : bool) (tab : Tab)
    (w : World) :
  py_truthy text = true ->
  widget_current (w_browser w) = Some tab ->
  exists w',
    search text reverse w = (Ret tt, w') /\
    tb_search_text (w_browser w') = Some text /\
    tb_search_options (w_browser w')
      = mkSearchOptions (Some (cfg_search_ignore_case (w_config w)))
                        (Some reverse) /\
    (tab_search_text <$> widget_current (w_browser w')) = Some (Some text) /\
    w_events w' =
      (w_events w ++
       [EvSetMark "'";
        EvSearch (tab_id tab) text (tb_search_options (w_browser w'))
          (Some (mkSearchCb (tab_id tab) (tab_pos_px tab)
                   (tb_search_options (w_browser w')) text false))])%list.
Proof.
  intros Htruthy Hcur.
  eexists. split.
  - unfold search, set_mark, _current_widget, tab_search_search, update_tab.
    run_steps. simpl w_browser. rewrite Hcur. run_steps.
    rewrite Htruthy. cbv [negb]. run_steps. reflexivity.
  - simpl. split; [reflexivity|]. split; [reflexivity|]. split.
    + rewrite (widget_current_update
                 (tb_with_search (Some text) _ (w_browser w)) tab _ Hcur).
      reflexivity.
    + rewrite <- app_assoc. reflexivity.
Qed.

(** X17.  How many steps [search_next] takes.  When the current tab
    already searched for the stored text, a count [c <> 0] makes
    [max (c - 1) 0] plain [next_result] calls and one more with the
    callback, and a count of 0 makes none.  When the tab searched for
    something else (or nothing), the search is first cleared and issued
    anew with the stored options and no callback; that uses up one step
    of the count, and the tab remembers the text from then on. *)
Theorem search_next_steps (w : World) (tab : Tab) (text : string)
    (count : Z) :
  widget_current (w_browser w) = Some tab ->
  tb_search_text (w_browser w) = Some text ->
  let options := tb_search_options (w_browser w) in
  let cb := mkSearchCb (tab_id tab) (tab_pos_px tab) options text false in
  let steps c :=
    if c =? 0 then []
    else (repeat (EvNextResult (tab_id tab) None) (Z.to_nat (c - 1)) ++
          [EvNextResult (tab_id tab) (Some cb)])%list in
  (tab_search_text tab = Some text ->
     search_next count w
       = (Ret tt, world_with_events (EvSetMark "'" :: steps count) w)) /\
  (tab_search_text tab <> Some text ->
     exists w',
       search_next count w = (Ret tt, w') /\
       w_events w' =
         (w_events w ++
          [EvSetMark "'"; EvSearchClear (tab_id tab);
           EvSearch (tab_id tab) text options None] ++ steps (count - 1))%list /\
       (tab_search_text <$> widget_current (w_browser w')) = Some (Some text)).
Proof.
  intros Hcur Htext options cb steps.
  split.
  - intros Hsame.
    unfold search_next, _current_widget, set_mark. run_steps.
    rewrite Hcur. run_steps. rewrite Htext. run_steps.
    rewrite Hsame, bool_decide_eq_true_2 by reflexivity. cbv [negb].
    run_steps. subst steps. cbv beta.
    destruct (count =? 0); [reflexivity|].
    run_steps. rewrite !world_with_events_app. reflexivity.
  - intros Hdiff.
    set (upd1 := fun t : Tab =>
           mkTab (tab_id t) (tab_pinned t) (tab_search_text t) false
                 (tab_pos_px t)).
    set (upd2 := fun t : Tab =>
           mkTab (tab_id t) (tab_pinned t) (Some text) true (tab_pos_px t)).
    assert (Hcur' :
      widget_current
        (tb_with_tabs
           (map (fun t => if Nat.eqb (tab_id t) (tab_id tab) then upd2 t else t)
              (map (fun t => if Nat.eqb (tab_id t) (tab_id tab) then upd1 t
                             else t)
                   (tb_tabs (w_browser w))))
           (w_browser w))
      = Some (upd2 (upd1 tab))).
    { pose proof (widget_current_update (w_browser w) tab upd1 Hcur) as H1.
      pose proof (widget_current_update _ (upd1 tab) upd2 H1) as H2.
      exact H2. }
    unfold search_next, _current_widget, set_mark, tab_search_clear,
      tab_search_search, update_tab. run_steps.
    rewrite Hcur. run_steps. rewrite Htext. run_steps.
    rewrite bool_decide_eq_false_2 by congruence. cbv [negb].
    run_steps. subst steps. cbv beta.
    destruct (count - 1 =? 0).
    + eexists. split; [reflexivity|]. simpl. split.
      * rewrite <- !app_assoc. reflexivity.
      * exact (f_equal (fmap tab_search_text) Hcur').
    + run_steps. eexists. split; [reflexivity|]. simpl. split.
      * rewrite <- !app_assoc. reflexivity.
      * exact (f_equal (fmap tab_search_text) Hcur').
Qed.

(** ** jseval_cb *)

Lemma string_length_append (a b : string) :
  String.length (a ++ b) = (String.length a + String.length b)%nat.
Proof. induction a as [|c a IH]; simpl; [reflexivity | rewrite IH; reflexivity]. Qed.

Lemma string_length_prefix (n : nat) (s : string) :
  (n <= String.length s)%nat -> String.length (substring 0 n s) = n.
Proof.
  revert s. induction n as [|n IH]; intros s Hn.
  - destruct s; reflexivity.
  - destruct s as [|c s]; simpl in *; [lia|]. rewrite IH by lia. reflexivity.
Qed.

(** X18.  [jseval_cb] shows exactly one message.  A result of at most
    5000 characters is shown as it is; a longer one is cut to its first
    5000 characters followed by [" [...trimmed...]"], so a message never
    has more than 5016 characters.  With no result it says so. *)
Theorem jseval_cb_trims (out : string) (w : World) :
  jseval_cb None w
    = (Ret tt, world_with_events [EvMessageInfo "No output or error"] w) /\
  exists msg,
    jseval_cb (Some out) w = (Ret tt, world_with_events [EvMessageInfo msg] w) /\
    ((String.length out <= 5000)%nat -> msg = out) /\
    ((5000 < String.length out)%nat ->
       msg = substring 0 5000 out ++ " [...trimmed...]" /\
       String.length msg = 5016%nat) /\
    (String.length msg <= 5016)%nat.
Proof.
  split; [reflexivity|].
  unfold jseval_cb.
  assert (H16 : (5000 + 16 = 5016)%nat) by (vm_compute; reflexivity).
  rewrite <- H16. clear H16.
  generalize 5000%nat. intros n.
  destruct (Nat.ltb n (String.length out)) eqn:E.
  - apply Nat.ltb_lt in E.
    assert (Hlen : String.length (substring 0 n out ++ " [...trimmed...]")
                   = (n + 16)%nat).
    { rewrite string_length_append, string_length_prefix by lia.
      reflexivity. }
    eexists. split; [reflexivity|].
    split; [intros H; lia|]. split; [intros _; split; [reflexivity | exact Hlen]|].
    rewrite Hlen. lia.
  - apply Nat.ltb_ge in E.
    eexists. split; [reflexivity|].
    split; [reflexivity|]. split; [intros H; lia | lia].
Qed.

(** ** buffer with a count *)

(** [int(str(n)) == n]: the decimal text of an int reads back as it. *)

Lemma parse_digit_step (c : ascii) (k acc : Z) (b : bool) (rest : string) :
  Ascii.eqb c "_" = false -> digit_of c = Some k ->
  parse_digits acc b (String c rest) = parse_digits (10 * acc + k) true rest.
Proof. intros H1 H2. simpl. rewrite H1, H2. reflexivity. Qed.

Ltac digit_step :=
  first [ rewrite (parse_digit_step _ 0) by reflexivity
        | rewrite (parse_digit_step _ 1) by reflexivity
        | rewrite (parse_digit_step _ 2) by reflexivity
        | rewrite (parse_digit_step _ 3) by reflexivity
        | rewrite (parse_digit_step _ 4) by reflexivity
        | rewrite (parse_digit_step _ 5) by reflexivity
        | rewrite (parse_digit_step _ 6) by reflexivity
        | rewrite (parse_digit_step _ 7) by reflexivity
        | rewrite (parse_digit_step _ 8) by reflexivity
        | rewrite (parse_digit_step _ 9) by reflexivity ].

Lemma parse_digits_of_uint_acc (d : Decimal.uint) (acc : positive) :
  parse_digits (Z.pos acc) true (NilEmpty.string_of_uint d)
  = Some (Z.pos (Pos.of_uint_acc d acc)).
Proof.
  revert acc. induction d; intros acc; [reflexivity|..];
    cbn [NilEmpty.string_of_uint Pos.of_uint_acc];
    digit_step; rewrite <- IHd; f_equal; lia.
Qed.

Lemma parse_digits_of_uint (d : Decimal.uint) :
  parse_digits 0 true (NilEmpty.string_of_uint d)
  = Some (Z.of_N (Pos.of_uint d)).
Proof.
  induction d; [reflexivity|..];
    cbn [NilEmpty.string_of_uint Pos.of_uint];
    digit_step; first [exact IHd | apply parse_digits_of_uint_acc].
Qed.

Lemma parse_digits_to_uint (p : positive) (b : bool) :
  parse_digits 0 b (NilEmpty.string_of_uint (Pos.to_uint p)) = Some (Z.pos p).
Proof.
  pose proof (parse_digits_of_uint (Pos.to_uint p)) as H.
  rewrite DecimalPos.Unsigned.of_to in H. simpl in H.
  destruct b; [exact H|].
  destruct (Pos.to_uint p) eqn:E; [exfalso; revert E; apply Unsigned.to_uint_nonnil|..];
    cbn [NilEmpty.string_of_uint] in *;
    digit_step; rewrite <- H; digit_step; reflexivity.
Qed.

Lemma strip_no_space (s : string) :
  Forall (fun c => int_isspace c = false) (list_ascii_of_string s) ->
  int_strip s = s.
Proof.
  unfold int_strip. intros H.
  assert (Hl : lstrip int_isspace s = s).
  { destruct s as [|c s]; [reflexivity|]. simpl in *.
    apply Forall_cons in H as [-> _]. reflexivity. }
  rewrite Hl. clear Hl.
  induction s as [|c s IH]; [reflexivity|].
  simpl in *. apply Forall_cons in H as [Hc Hs].
  rewrite (IH Hs). destruct s; [rewrite Hc|]; reflexivity.
Qed.

Lemma digits_no_space (d : Decimal.uint) :
  Forall (fun c => int_isspace c = false)
         (list_ascii_of_string (NilEmpty.string_of_uint d)).
Proof.
  induction d; simpl; constructor; try reflexivity; assumption.
Qed.

Lemma py_int_py_str (n : Z) : py_int (py_str n) = Some n.
Proof.
  unfold py_str, py_int. destruct n as [|p|p]; [reflexivity|..];
    cbn [Z.to_int NilZero.string_of_int].
  - assert (Hd : NilZero.string_of_uint (Pos.to_uint p)
                 = NilEmpty.string_of_uint (Pos.to_uint p)).
    { destruct (Pos.to_uint p) eqn:E; [|reflexivity..].
      exfalso. revert E. apply Unsigned.to_uint_nonnil. }
    rewrite Hd, (strip_no_space _ (digits_no_space _)).
    pose proof (parse_digits_to_uint p false) as H.
    destruct (Pos.to_uint p) eqn:E;
      [exfalso; revert E; apply Unsigned.to_uint_nonnil|..];
      exact H.
  - assert (Hd : NilZero.string_of_uint (Pos.to_uint p)
                 = NilEmpty.string_of_uint (Pos.to_uint p)).
    { destruct (Pos.to_uint p) eqn:E; [|reflexivity..].
      exfalso. revert E. apply Unsigned.to_uint_nonnil. }
    rewrite Hd.
    rewrite strip_no_space.
    + cbn [Ascii.eqb]. simpl Ascii.eqb.
      change (Z.opp <$> parse_digits 0 false
                (NilEmpty.string_of_uint (Pos.to_uint p)) = Some (Z.neg p)).
      rewrite parse_digits_to_uint. reflexivity.
    + constructor; [reflexivity | apply digits_no_space].
Qed.

Lemma split1_no_sep (sep : ascii) (s : string) :
  ~ In sep (list_ascii_of_string s) -> py_split1 sep s = [s].
Proof.
  induction s as [|c s IH]; intros Hno; simpl; [reflexivity|].
  simpl in Hno. destruct (Ascii.eqb c sep) eqn:E.
  - apply Ascii.eqb_eq in E. tauto.
  - rewrite IH by tauto. reflexivity.
Qed.

Section BufferCount.
Context {collab : Collaborators}.

(** Resolution of an index with no ["/"] that is an int. *)
Lemma resolve_one_part (index : string) (idx : Z) (w : World) :
  py_int index = Some idx ->
  _resolve_buffer_index index w =
    match w_active w with
    | None =>
        (Raise (CommandError
           "No window specified and couldn't find active window!"), w)
    | Some win_id =>
        match registry_lookup w win_id with
        | None =>
            (Raise (CommandError
               ("There's no window with id " ++ py_str win_id ++ "!")), w)
        | Some tabbed_browser =>
            if negb ((0 <? idx) && (idx <=? widget_count tabbed_browser)) then
              (Raise (CommandError
                 ("There's no tab with index " ++ py_str idx ++ "!")), w)
            else (Ret (win_id, widget_at tabbed_browser (idx - 1)), w)
        end
    end.
Proof.
  intros Hint.
  unfold _resolve_buffer_index. fold slash.
  rewrite (split1_no_sep slash index (py_int_no_slash index idx Hint)).
  cbv [forallb]. rewrite (is_int_true index idx Hint).
  cbv [andb]. run_steps. unfold int_or_raise. rewrite Hint.
  run_steps.
  destruct (w_active w) as [win_id|]; [|reflexivity].
  run_steps. cbv [fst snd].
  destruct (registry_lookup w win_id) as [tb|]; [|reflexivity].
  destruct (negb _); reflexivity.
Qed.

(** X19.  [buffer] with a count ignores its index argument and selects
    the tab at that 1-based position in the active window: it raises a
    [CommandError] when there is no active window, when the active
    window is not in the registry, or when the count is outside
    [[1, tab count]], and otherwise activates and raises that window and
    makes the tab current (the tabs of a window being distinct
    objects). *)
Theorem buffer_count_selects (w : World) (index : option string)
    (count : Z) :
  (w_active w = None ->
     buffer index (Some count) w =
       (Raise (CommandError
          "No window specified and couldn't find active window!"), w)) /\
  (forall win_id, w_active w = Some win_id ->
     (registry_lookup w win_id = None ->
        buffer index (Some count) w =
          (Raise (CommandError
             ("There's no window with id " ++ py_str win_id ++ "!")), w)) /\
     (forall tb, registry_lookup w win_id = Some tb ->
        ~ (1 <= count <= widget_count tb) ->
        buffer index (Some count) w =
          (Raise (CommandError
             ("There's no tab with index " ++ py_str count ++ "!")), w)) /\
     (forall tb, registry_lookup w win_id = Some tb ->
        1 <= count <= widget_count tb ->
        NoDup (map tab_id (tb_tabs tb)) ->
        exists w',
          buffer index (Some count) w = (Ret tt, w') /\
          registry_lookup w' win_id = Some (tb_with_current (count - 1) tb) /\
          w_events w' =
            (w_events w ++
             [EvActivateWindow win_id; EvRaiseWindow win_id])%list)).
Proof.
  pose proof (resolve_one_part (py_str count) count w (py_int_py_str count))
    as Hres.
  assert (Hbuf : buffer index (Some count) w =
    (let* r := _resolve_buffer_index (py_str count) in
     do emit (EvActivateWindow (fst r)) then
     do emit (EvRaiseWindow (fst r)) then
     registry_alter (fst r) (widget_set_current_widget (snd r))) w).
  { unfold buffer. destruct index; reflexivity. }
  rewrite Hbuf. clear Hbuf.
  split.
  - intros Hact. rewrite Hact in Hres.
    unfold bind at 1. rewrite Hres. reflexivity.
  - intros win_id Hact. rewrite Hact in Hres. split; [|split].
    + intros Hnone. rewrite Hnone in Hres.
      unfold bind at 1. rewrite Hres. reflexivity.
    + intros tb Htb Hout. rewrite Htb in Hres.
      replace (negb ((0 <? count) && (count <=? widget_count tb)))
        with true in Hres.
      * unfold bind at 1. rewrite Hres. reflexivity.
      * symmetry. apply negb_true_iff, andb_false_iff.
        destruct (Z_lt_dec 0 count);
          [right; apply Z.leb_gt | left; apply Z.ltb_ge]; lia.
    + intros tb Htb Hin Hnd. rewrite Htb in Hres.
      replace (negb ((0 <? count) && (count <=? widget_count tb)))
        with false in Hres.
      2:{ symmetry. apply negb_false_iff, andb_true_iff.
          split; [apply Z.ltb_lt | apply Z.leb_le]; lia. }
      destruct (widget_at_in_range tb (count - 1)) as (t & Hat & Hl); [lia|].
      rewrite Hat in Hres.
      unfold bind at 1. rewrite Hres. cbv [fst snd].
      run_steps.
      eexists. split; [apply surjective_pairing|].
      split.
      * rewrite registry_lookup_alter, !registry_lookup_with_events, Htb.
        change (Some (widget_set_current_widget (Some t) tb)
                = Some (tb_with_current (count - 1) tb)).
        rewrite (set_current_widget_in_range tb _ t Hnd Hl).
        do 2 f_equal. lia.
      * unfold registry_alter. simpl.
        destruct (win_id =? _); simpl; rewrite <- app_assoc; reflexivity.
Qed.

End BufferCount.
(** ** tab_only *)

Lemma to_close_iff (prev next_ : bool) (cur i : Z) :
  _to_close prev next_ cur i = true <->
  i <> cur /\ (prev = true -> cur < i) /\ (next_ = true -> i < cur).
Proof.
  unfold _to_close. rewrite Z.gtb_ltb.
  destruct (Z.eqb_spec i cur) as [Heq|Hne]; simpl.
  - split; [discriminate | intros (H & _); contradiction].
  - destruct (Z.ltb_spec i cur), (Z.ltb_spec cur i), prev, next_; simpl;
      split; try discriminate; try (intros _; repeat split; auto; intros _; lia);
      try (intros _; repeat split; auto; discriminate);
      intros (_ & H1 & H2);
      try (specialize (H1 eq_refl)); try (specialize (H2 eq_refl)); lia.
Qed.

(** The close calls of the loop are those of the positions to close that
    are unpinned or forced. *)
Lemma tab_only_loop_closes (prev next_ force : bool) (cur : Z)
    (tabs : list Tab) :
  forall (i : Z) (first : bool) (pinned : option Tab) (id : nat),
    (exists u, In (CallCloseTab id u)
                  (fst (tab_only_loop prev next_ force cur i tabs first
                                      pinned))) <->
    (exists k t, tabs !! k = Some t /\ tab_id t = id /\
       _to_close prev next_ cur (i + Z.of_nat k) = true /\
       force || negb (tab_pinned t) = true).
Proof.
  induction tabs as [|tab rest IH]; intros i first pinned id.
  - simpl. split; [intros [u []] | intros (k & t & H & _); discriminate].
  - assert (Hshift : forall first' pinned',
      (exists u, In (CallCloseTab id u)
         (fst (tab_only_loop prev next_ force cur (i + 1) rest first'
                             pinned'))) <->
      (exists k t, (tab :: rest) !! S k = Some t /\ tab_id t = id /\
         _to_close prev next_ cur (i + Z.of_nat (S k)) = true /\
         force || negb (tab_pinned t) = true)).
    { intros first' pinned'. rewrite IH.
      split; intros (k & t & Hk & Hid & Hc & Hp); exists k, t;
        (split; [exact Hk|]); (split; [exact Hid|]); (split; [|exact Hp]);
        [replace (i + Z.of_nat (S k)) with (i + 1 + Z.of_nat k) by lia
        |replace (i + 1 + Z.of_nat k) with (i + Z.of_nat (S k)) by lia];
        exact Hc. }
    assert (Hsplit : forall P : nat -> Tab -> Prop,
      (exists k t, (tab :: rest) !! k = Some t /\ P k t) <->
      (P 0%nat tab \/ exists k t, (tab :: rest) !! S k = Some t /\ P (S k) t)).
    { intros P. split.
      - intros ([|k] & t & Hk & HP).
        + left. simpl in Hk. injection Hk as <-. exact HP.
        + right. exists k, t. split; assumption.
      - intros [HP | (k & t & Hk & HP)].
        + exists 0%nat, tab. split; [reflexivity | exact HP].
        + exists (S k), t. split; assumption. }
    rewrite (Hsplit (fun k t => tab_id t = id /\
       _to_close prev next_ cur (i + Z.of_nat k) = true /\
       force || negb (tab_pinned t) = true)).
    replace (i + Z.of_nat 0) with i by lia.
    simpl tab_only_loop.
    destruct (_to_close prev next_ cur i) eqn:Hc;
      [destruct (force || negb (tab_pinned tab)) eqn:Hp|].
    + simpl fst. split.
      * intros [u [Hin | Hin]].
        -- left. injection Hin as Hid _. auto.
        -- right. apply (Hshift false pinned). exists u. exact Hin.
      * intros [(Hid & _) | H].
        -- exists first. left. rewrite Hid. reflexivity.
        -- apply (Hshift false pinned) in H as [u Hu]. exists u. right.
           exact Hu.
    + rewrite Hshift. split; [intros H; right; exact H|].
      intros [(_ & _ & H) | H]; [discriminate | exact H].
    + rewrite Hshift. split; [intros H; right; exact H|].
      intros [(_ & H & _) | H]; [discriminate | exact H].
Qed.

(** All calls of the loop are close calls; the first of them has
    [new_undo = first_tab] and the later ones [False]. *)
Lemma tab_only_loop_flags (prev next_ force : bool) (cur : Z)
    (tabs : list Tab) :
  forall (i : Z) (first : bool) (pinned : option Tab),
    match fst (tab_only_loop prev next_ force cur i tabs first pinned) with
    | [] => True
    | c :: rest =>
        (exists id, c = CallCloseTab id first) /\
        Forall (fun c => exists id, c = CallCloseTab id false) rest
    end.
Proof.
  induction tabs as [|tab rest IH]; intros i first pinned; [exact I|].
  simpl tab_only_loop.
  destruct (_to_close prev next_ cur i);
    [destruct (force || negb (tab_pinned tab))|]; try apply IH.
  simpl fst. split; [eauto|].
  specialize (IH (i + 1) false pinned).
  destruct (fst (tab_only_loop prev next_ force cur (i + 1) rest false pinned))
    as [|c l]; [constructor|].
  destruct IH as [[id Hc] Hl]. constructor; [eauto | assumption].
Qed.

(** [pinned_tabs_cleanup] keeps its value over tabs none of which is a
    pinned tab to close without [force]. *)
Lemma tab_only_loop_pinned_kept (prev next_ force : bool) (cur : Z)
    (tabs : list Tab) :
  forall (i : Z) (first : bool) (pinned : option Tab),
    (forall k t, tabs !! k = Some t ->
       _to_close prev next_ cur (i + Z.of_nat k) = true ->
       force || negb (tab_pinned t) = true) ->
    snd (tab_only_loop prev next_ force cur i tabs first pinned) = pinned.
Proof.
  induction tabs as [|tab rest IH]; intros i first pinned Hall;
    [reflexivity|].
  assert (Hrest : forall k t, rest !! k = Some t ->
            _to_close prev next_ cur (i + 1 + Z.of_nat k) = true ->
            force || negb (tab_pinned t) = true).
  { intros k t Hk Hc. apply (Hall (S k) t Hk).
    replace (i + Z.of_nat (S k)) with (i + 1 + Z.of_nat k) by lia.
    exact Hc. }
  simpl tab_only_loop.
  destruct (_to_close prev next_ cur i) eqn:Hc;
    [destruct (force || negb (tab_pinned tab)) eqn:Hp|].
  - simpl snd. apply IH, Hrest.
  - pose proof (Hall 0%nat tab eq_refl) as H0.
    replace (i + Z.of_nat 0) with i in H0 by lia.
    rewrite (H0 Hc) in Hp. discriminate.
  - apply IH, Hrest.
Qed.

(** [pinned_tabs_cleanup] ends as the last pinned tab that was to be
    closed and was not. *)
Lemma tab_only_loop_pinned_last (prev next_ force : bool) (cur : Z)
    (pre : list Tab) (t : Tab) (post : list Tab) :
  forall (i : Z) (first : bool) (pinned : option Tab),
    _to_close prev next_ cur (i + Z.of_nat (length pre)) = true ->
    force || negb (tab_pinned t) = false ->
    (forall k t', post !! k = Some t' ->
       _to_close prev next_ cur (i + Z.of_nat (length pre) + 1 + Z.of_nat k)
         = true ->
       force || negb (tab_pinned t') = true) ->
    snd (tab_only_loop prev next_ force cur i (pre ++ t :: post) first pinned)
    = Some t.
Proof.
  induction pre as [|tab pre IH]; intros i first pinned Hc Hp Hpost.
  - simpl length in *. replace (i + Z.of_nat 0) with i in * by lia.
    simpl. rewrite Hc, Hp. apply tab_only_loop_pinned_kept. exact Hpost.
  - assert (Hc' : _to_close prev next_ cur (i + 1 + Z.of_nat (length pre))
                  = true).
    { replace (i + 1 + Z.of_nat (length pre))
        with (i + Z.of_nat (length (tab :: pre))) by (simpl length; lia).
      exact Hc. }
    assert (Hpost' : forall k t', post !! k = Some t' ->
      _to_close prev next_ cur (i + 1 + Z.of_nat (length pre) + 1 + Z.of_nat k)
        = true ->
      force || negb (tab_pinned t') = true).
    { intros k t' Hk Hck. apply (Hpost k t' Hk).
      replace (i + Z.of_nat (length (tab :: pre)) + 1 + Z.of_nat k)
        with (i + 1 + Z.of_nat (length pre) + 1 + Z.of_nat k)
        by (simpl length; lia).
      exact Hck. }
    simpl.
    destruct (_to_close prev next_ cur i);
      [destruct (force || negb (tab_pinned tab))|]; simpl snd;
      apply IH; assumption.
Qed.

Lemma check_exclusive_pn (prev next_ : bool) (w : World) :
  check_exclusive [prev; next_] "pn" w =
    if prev && next_
    then (Raise (CommandError "Only one of -p/-n can be given!"), w)
    else (Ret tt, w).
Proof. destruct prev, next_; reflexivity. Qed.

Lemma tab_only_run (prev next_ force : bool) (w : World) :
  prev && next_ = false ->
  tb_current (w_browser w) <> -1 ->
  tab_only prev next_ force w =
    let r := tab_only_loop prev next_ force (tb_current (w_browser w)) 0
                           (tb_tabs (w_browser w)) true None in
    match snd r with
    | Some pinned_tabs_cleanup =>
        (inr tt,
         (fst r ++
          [CallClosePromptIfPinned (tab_id pinned_tabs_cleanup) force
             prev next_ true
             "Are you sure you want to close pinned tabs?"])%list)
    | None => (inr tt, fst r)
    end.
Proof.
  intros Hpn Hcur. unfold tab_only.
  rewrite check_exclusive_pn, Hpn. simpl fst.
  replace (tb_current (w_browser w) =? -1) with false
    by (symmetry; apply Z.eqb_neq; exact Hcur).
  reflexivity.
Qed.

(** X20.  [tab_only] with both [prev] and [next_] is refused before any
    call.  Otherwise, in a window with a current tab, it closes exactly
    the tabs at the positions other than the current one -- those after
    it only with [prev], those before it only with [next_] -- that are
    not pinned, or all of them with [force]; only its first call has
    [new_undo] set; and the current tab is never closed (the tabs being
    distinct objects). *)
Theorem tab_only_closes (prev next_ force : bool) (w : World) :
  let tb := w_browser w in
  (prev && next_ = true ->
     tab_only prev next_ force w =
       (inl (Raised (CommandError "Only one of -p/-n can be given!")), [])) /\
  (prev && next_ = false ->
   tb_current tb <> -1 ->
   exists calls,
     tab_only prev next_ force w = (inr tt, calls) /\
     (forall id,
        (exists u, In (CallCloseTab id u) calls) <->
        (exists k t, tb_tabs tb !! k = Some t /\ tab_id t = id /\
           to_be_closed prev next_ tb k /\
           (force = true \/ tab_pinned t = false))) /\
     (forall pre id u post,
        calls = (pre ++ CallCloseTab id u :: post)%list ->
        (u = true <-> pre = [])) /\
     (NoDup (map tab_id (tb_tabs tb)) ->
      forall t u, widget_current tb = Some t ->
        ~ In (CallCloseTab (tab_id t) u) calls)).
Proof.
  cbv zeta. split.
  { intros Hpn. unfold tab_only. rewrite check_exclusive_pn, Hpn.
    reflexivity. }
  intros Hpn Hcur.
  set (cur := tb_current (w_browser w)).
  set (tabs := tb_tabs (w_browser w)).
  set (r := tab_only_loop prev next_ force cur 0 tabs true None).
  assert (Hclosed : forall id,
    (exists u, In (CallCloseTab id u) (fst r)) <->
    (exists k t, tabs !! k = Some t /\ tab_id t = id /\
       to_be_closed prev next_ (w_browser w) k /\
       (force = true \/ tab_pinned t = false))).
  { intros id. subst r. rewrite tab_only_loop_closes.
    split; intros (k & t & Hk & Hid & Hc & Hp); exists k, t;
      (split; [exact Hk|]); (split; [exact Hid|]).
    - split; [apply to_close_iff in Hc; exact Hc|].
      apply orb_true_iff in Hp as [Hp|Hp]; [left; exact Hp|].
      right. apply negb_true_iff. exact Hp.
    - split; [apply to_close_iff; exact Hc|].
      apply orb_true_iff. destruct Hp as [Hp|Hp]; [left; exact Hp|].
      right. apply negb_true_iff. exact Hp. }
  assert (Hflags : forall pre id u post,
    fst r = (pre ++ CallCloseTab id u :: post)%list ->
    (u = true <-> pre = [])).
  { intros pre id u post Heq.
    pose proof (tab_only_loop_flags prev next_ force cur tabs 0 true None)
      as Hf. fold r in Hf. rewrite Heq in Hf.
    destruct pre as [|c pre]; simpl in Hf.
    - destruct Hf as [[id' Hc] _]. injection Hc as _ ->. tauto.
    - destruct Hf as [_ Hl].
      apply Forall_app in Hl as [_ Hl]. apply Forall_cons in Hl as [[id' Hc] _].
      injection Hc as _ ->. split; discriminate. }
  assert (Hin_fst : forall calls' id u,
    In (CallCloseTab id u) (fst r ++ calls') ->
    (forall c, In c calls' -> ~ is_close c) ->
    In (CallCloseTab id u) (fst r)).
  { intros calls' id u Hin Hno. apply in_app_or in Hin as [Hin|Hin];
      [exact Hin|]. exfalso. apply (Hno _ Hin). exists id, u. reflexivity. }
  assert (Hprompt : forall tid f a b c txt x,
    In x [CallClosePromptIfPinned tid f a b c txt] -> ~ is_close x).
  { intros tid f a b c txt x [<-|[]] (id & u & H). discriminate. }
  assert (Hcurrent : forall calls,
    (forall id, (exists u, In (CallCloseTab id u) calls) ->
       exists k t, tabs !! k = Some t /\ tab_id t = id /\
         to_be_closed prev next_ (w_browser w) k /\
         (force = true \/ tab_pinned t = false)) ->
    NoDup (map tab_id tabs) ->
    forall t u, widget_current (w_browser w) = Some t ->
      ~ In (CallCloseTab (tab_id t) u) calls).
  { intros calls Hcl Hnd t u Hw Hin.
    destruct (Hcl (tab_id t) (ex_intro _ u Hin))
      as (k & t' & Hk & Hid & (Hne & _) & _).
    unfold widget_current, widget_at in Hw. fold cur tabs in Hw, Hne.
    destruct (cur <? 0) eqn:E; [discriminate|].
    apply Z.ltb_ge in E.
    assert (Hkc : k = Z.to_nat cur).
    { eapply NoDup_lookup; [exact Hnd| |].
      - rewrite list_lookup_fmap. fold tabs. rewrite Hk. simpl.
        rewrite Hid. reflexivity.
      - rewrite list_lookup_fmap. fold tabs. rewrite Hw. reflexivity. }
    lia. }
  rewrite (tab_only_run prev next_ force w Hpn Hcur). cbv zeta.
  fold cur tabs r.
  destruct (snd r) as [p|].
  - eexists. split; [reflexivity|]. split; [|split].
    + intros id. rewrite <- Hclosed. split; intros [u Hu]; exists u.
      * eapply Hin_fst; [exact Hu | apply Hprompt].
      * apply in_or_app. left. exact Hu.
    + intros pre id u post Heq.
      destruct post as [|c post _] using rev_ind.
      * apply (f_equal (@rev Call)) in Heq.
        rewrite !rev_app_distr in Heq. simpl in Heq. discriminate.
      * rewrite app_comm_cons, app_assoc in Heq.
        apply app_inj_tail in Heq as [Heq _].
        apply (Hflags pre id u post Heq).
    + apply Hcurrent. intros id [u Hu]. apply Hclosed. exists u.
      eapply Hin_fst; [exact Hu | apply Hprompt].
  - eexists. split; [reflexivity|]. split; [exact Hclosed|].
    split; [exact Hflags|]. apply Hcurrent. intros id H. apply Hclosed, H.
Qed.

(** X21.  Pinned tabs and [tab_only].  With [force], or when no pinned
    tab is among those to close, [tab_only] only closes tabs.  Without
    [force], the pinned tabs to close are left open and, after the
    closing, one prompt is raised for the last of them, whose
    confirmation runs [tab_only] with the same [prev] and [next_] and
    with [force]. *)
Theorem tab_only_pinned_prompt (prev next_ force : bool) (w : World) :
  let tb := w_browser w in
  let pinned_to_close (k : nat) (t : Tab) :=
    tb_tabs tb !! k = Some t /\ tab_pinned t = true /\
    to_be_closed prev next_ tb k in
  prev && next_ = false ->
  tb_current tb <> -1 ->
  exists calls,
    tab_only prev next_ force w = (inr tt, calls) /\
    (force = true \/ (forall k t, ~ pinned_to_close k t) ->
       Forall is_close calls) /\
    (force = false ->
     forall k t, pinned_to_close k t ->
       (forall k' t', (k < k')%nat -> ~ pinned_to_close k' t') ->
       exists closes,
         calls =
           (closes ++
            [CallClosePromptIfPinned (tab_id t) false prev next_ true
               "Are you sure you want to close pinned tabs?"])%list /\
         Forall is_close closes /\
         (forall k' t' u, pinned_to_close k' t' ->
            NoDup (map tab_id (tb_tabs tb)) ->
            ~ In (CallCloseTab (tab_id t') u) closes)).
Proof.
  cbv zeta. intros Hpn Hcur.
  set (cur := tb_current (w_browser w)).
  set (tabs := tb_tabs (w_browser w)).
  set (r := tab_only_loop prev next_ force cur 0 tabs true None).
  assert (Hcloses : Forall is_close (fst r)).
  { pose proof (tab_only_loop_flags prev next_ force cur tabs 0 true None)
      as Hf. fold r in Hf.
    destruct (fst r) as [|c l]; [constructor|].
    destruct Hf as [[id Hc] Hl]. constructor; [exists id, true; exact Hc|].
    eapply Forall_impl; [exact Hl|].
    intros x [id' Hx]. exists id', false. exact Hx. }
  rewrite (tab_only_run prev next_ force w Hpn Hcur). cbv zeta.
  fold cur tabs r.
  assert (Hnone : force = true \/
      (forall k t, ~ (tabs !! k = Some t /\ tab_pinned t = true /\
                      to_be_closed prev next_ (w_browser w) k)) ->
    snd r = None).
  { intros H. subst r. apply tab_only_loop_pinned_kept.
    intros k t Hk Hc. simpl in Hc.
    destruct H as [-> | H]; [reflexivity|].
    destruct (tab_pinned t) eqn:Hp; [|apply orb_true_r].
    exfalso. apply (H k t). split; [exact Hk|]. split; [exact Hp|].
    apply to_close_iff in Hc. exact Hc. }
  assert (Hlast : force = false ->
    forall k t,
      (tabs !! k = Some t /\ tab_pinned t = true /\
       to_be_closed prev next_ (w_browser w) k) ->
      (forall k' t', (k < k')%nat ->
         ~ (tabs !! k' = Some t' /\ tab_pinned t' = true /\
            to_be_closed prev next_ (w_browser w) k')) ->
      snd r = Some t).
  { intros Hf k t (Hk & Hp & Hc) Hlater.
    pose proof (take_drop_middle tabs k t Hk) as Hmid.
    pose proof (lookup_lt_Some _ _ _ Hk) as Hlt.
    subst r. rewrite <- Hmid.
    apply tab_only_loop_pinned_last.
    - rewrite length_take, Nat.min_l by lia. simpl.
      apply to_close_iff. exact Hc.
    - rewrite Hf, Hp. reflexivity.
    - intros j t' Hj Hcj. rewrite length_take, Nat.min_l in Hcj by lia.
      rewrite lookup_drop in Hj.
      destruct (tab_pinned t') eqn:Hp'; [|apply orb_true_r].
      exfalso. apply (Hlater (S k + j)%nat t'); [lia|].
      split; [exact Hj|]. split; [exact Hp'|].
      apply to_close_iff.
      replace (Z.of_nat (S k + j)) with (0 + Z.of_nat k + 1 + Z.of_nat j)
        by lia.
      exact Hcj. }
  destruct (snd r) as [p|] eqn:Hsnd.
  - eexists. split; [reflexivity|]. split.
    + intros H. pose proof (Hnone H). congruence.
    + intros Hf k t Hpin Hlater.
      assert (Heq : p = t)
        by (pose proof (Hlast Hf k t Hpin Hlater); congruence).
      subst p. rewrite Hf.
      exists (fst r). split; [reflexivity|]. split; [exact Hcloses|].
      intros k' t' u (Hk' & Hp' & Hc') Hnd Hin.
      assert (Hex : exists u, In (CallCloseTab (tab_id t') u) (fst r))
        by (exists u; exact Hin).
      subst r. apply tab_only_loop_closes in Hex
        as (j & t'' & Hj & Hid & _ & Hpj).
      assert (Hjk : j = k').
      { eapply NoDup_lookup; [exact Hnd| |];
          rewrite list_lookup_fmap; fold tabs.
        - rewrite Hj. simpl. rewrite Hid. reflexivity.
        - rewrite Hk'. reflexivity. }
      subst j. rewrite Hk' in Hj. injection Hj as <-.
      rewrite Hf, Hp' in Hpj. discriminate.
  - eexists. split; [reflexivity|]. split; [intros _; exact Hcloses|].
    intros Hf k t Hpin Hlater.
    pose proof (Hlast Hf k t Hpin Hlater). congruence.
Qed.

(** * The further properties on sample windows *)

Lemma world4_wf (wrap : bool) (sel : SelectionBehavior) :
  widget_wf (w_browser (world4 wrap sel)).
Proof.
  split; [reflexivity | right; vm_compute; split; [discriminate | reflexivity]].
Defined.

Lemma world4_distinct (wrap : bool) (sel : SelectionBehavior) :
  NoDup (map tab_id (tb_tabs (w_browser (world4 wrap sel)))).
Proof. apply (bool_decide_unpack _). vm_compute. exact I. Defined.

Lemma tab_focus_negative_index_witness :
  @tab_focus sample_registry (Some (FocusInt (-1))) None false
             (world4 true SelectRightTab)
  = (Ret tt, world_with_current 3 (world4 true SelectRightTab)).
Proof.
  assert (Hneg : -1 < 0) by lia.
  pose proof (@tab_focus_negative_index sample_registry
                (world4 true SelectRightTab) (-1) false
                (world4_wf true SelectRightTab) Hneg) as H.
  cbv zeta in H. destruct H as [H _].
  apply H. vm_compute. discriminate.
Defined.

Lemma tab_focus_positive_index_witness :
  @tab_focus sample_registry (Some (FocusInt 2)) None true
             (world4 true SelectRightTab)
  = (Ret tt, world_with_current 1 (world4 true SelectRightTab)).
Proof.
  assert (Hpos : 0 <= 2) by lia.
  pose proof (@tab_focus_positive_index sample_registry
                (world4 true SelectRightTab) 2 true
                (world4_wf true SelectRightTab) Hpos (or_introl eq_refl)) as H.
  cbv zeta in H. destruct H as [H _].
  apply H. vm_compute. split; discriminate.
Defined.

Lemma tab_focus_current_goes_to_last_witness :
  @tab_focus sample_registry (Some (FocusInt 3)) None false
             (world4 true SelectRightTab)
  = (Ret tt, world_with_current 0 (world4 true SelectRightTab)).
Proof.
  pose proof (@tab_focus_current_goes_to_last sample_registry
                (world4 true SelectRightTab)
                (world4_wf true SelectRightTab)
                (world4_distinct true SelectRightTab)) as H.
  cbv zeta in H. destruct H as (_ & H & _).
  apply (H (sample_tab 10) 0%nat); reflexivity.
Defined.

Lemma tab_focus_last_index_witness :
  @tab_focus sample_registry (Some FocusLast) None false
             (world4 true SelectRightTab)
  = (Ret tt, world_with_current 0 (world4 true SelectRightTab)).
Proof.
  destruct (@tab_focus_last_index sample_registry
              (world4 true SelectRightTab)
              (world4_wf true SelectRightTab)
              (world4_distinct true SelectRightTab)) as (_ & H & _).
  apply (H (sample_tab 10) 0%nat); reflexivity.
Defined.

Lemma tab_move_relative_wraps_witness :
  tab_move (Some IdxPlus) (Some 3) (world4 true SelectRightTab)
  = (Ret tt,
     world_with_browser (widget_move_tab 2 1 browser4)
                        (world4 true SelectRightTab)).
Proof.
  assert (Hpos : 0 < widget_count (w_browser (world4 true SelectRightTab)))
    by reflexivity.
  pose proof (tab_move_relative_wraps (world4 true SelectRightTab) true
                (Some 3) (world4_wf true SelectRightTab) Hpos eq_refl) as H.
  cbv zeta in H. destruct H as [_ H]. exact H.
Defined.

Lemma tab_move_relative_bounded_witness :
  tab_move (Some IdxPlus) (Some 3) (world4 false SelectRightTab)
  = (Raise (CommandError "Can't move tab to position 6!"),
     world4 false SelectRightTab).
Proof.
  pose proof (tab_move_relative_bounded (world4 false SelectRightTab) true
                (Some 3) (world4_wf false SelectRightTab) eq_refl) as H.
  cbv zeta in H. destruct H as [_ H].
  apply H. vm_compute. intros [_ Hlt]. discriminate Hlt.
Defined.

Lemma tab_move_relative_no_tabs_witness :
  tab_move (Some IdxMinus) None world0 = (Raise ZeroDivisionError, world0).
Proof.
  apply (tab_move_relative_no_tabs world0 false None); reflexivity.
Defined.

Lemma tab_move_keeps_tabs_witness :
  let w' := snd (tab_move None None (world4 true SelectRightTab)) in
  tb_tabs (w_browser w') ≡ₚ tb_tabs browser4 /\
  widget_current (w_browser w') = Some (sample_tab 12).
Proof.
  cbv zeta.
  assert (Hrun : tab_move None None (world4 true SelectRightTab)
                 = (Ret tt, snd (tab_move None None
                                   (world4 true SelectRightTab))))
    by (vm_compute; reflexivity).
  destruct (tab_move_keeps_tabs (world4 true SelectRightTab) _ None None Hrun)
    as (Hperm & Hcur & _).
  split; [exact Hperm | exact Hcur].
Defined.

Lemma tab_close_selection_restored_witness :
  _tab_close (sample_tab 12) true false false (world4 true SelectRightTab)
  = (Ret tt,
     world_with_events [EvCloseTab 12 SelectLeftTab]
                       (world4 true SelectRightTab)).
Proof.
  pose proof (tab_close_selection_restored (world4 true SelectRightTab)
                (sample_tab 12) true false false) as H.
  cbv zeta in H. destruct H as (_ & H & _).
  apply H; reflexivity.
Defined.

Lemma tab_pin_twice_witness :
  exists w1,
    tab_pin (Some 2) world_pinned = (Ret tt, w1) /\
    (tab_pinned <$> tb_tabs (w_browser w1) !! 1%nat) = Some false /\
    tab_pin (Some 2) w1
      = (Ret tt,
         world_with_events
           [EvSetTabPinned 11 false; EvSetTabPinned 11 true] world_pinned).
Proof.
  assert (Hmax : widget_count (w_browser world_pinned) < INT_MAX)
    by reflexivity.
  assert (Hnd : NoDup (map tab_id (tb_tabs (w_browser world_pinned))))
    by (apply (bool_decide_unpack _); vm_compute; exact I).
  exact (tab_pin_twice world_pinned (Some 2) 1 (sample_pinned_tab 11)
           Hmax Hnd eq_refl (or_intror eq_refl)).
Defined.

Lemma open_destination_witness :
  _open (mkQUrl "http://a" "http" true "") true false false false None
        (world4 true SelectRightTab)
  = (Ret tt,
     world_with_events
       [EvTabOpen false (mkQUrl "http://a" "http" true "") (Some false)
                  (Some false)]
       (world4 true SelectRightTab)).
Proof.
  pose proof (open_destination (mkQUrl "http://a" "http" true "") false
                (world4 true SelectRightTab) eq_refl) as H.
  cbv zeta in H. destruct H as (H & _). exact H.
Defined.

Lemma openurl_in_current_tab_witness :
  @openurl sample_collaborators
           (Some (UrlQ (mkQUrl "http://a" "http" true ""))) false false false
           false None false false (world4 true SelectRightTab)
  = (Ret tt,
     world_with_events [EvOpenUrl 12 (mkQUrl "http://a" "http" true "")]
                       (world4 true SelectRightTab)).
Proof.
  exact (@openurl_in_current_tab sample_collaborators
           (Some (mkQUrl "http://a" "http" true "")) false None
           (Some (sample_tab 12)) (world4 true SelectRightTab) eq_refl).
Defined.

Lemma openurl_lines_in_tabs_witness :
  @openurl sample_collaborators (Some (UrlS two_urls)) false false true false
           None false false (world4 true SelectRightTab)
  = (Ret tt,
     world_with_events
       [EvTabOpen false (mkQUrl "http://a" "url" true "") (Some false)
                  (Some false);
        EvTabOpen false (mkQUrl "http://b" "url" true "") (Some true)
                  (Some false)]
       (world4 true SelectRightTab)).
Proof.
  apply (@openurl_lines_in_tabs sample_collaborators two_urls "http://a"
           ["http://b"] (mkQUrl "http://a" "url" true "")
           [mkQUrl "http://b" "url" true ""]);
    [reflexivity | reflexivity | | reflexivity].
  repeat constructor.
Defined.

Lemma openurl_blank_text_witness :
  @openurl sample_collaborators (Some (UrlS "  ")) false false true false
           None false false (world4 true SelectRightTab)
  = (Ret tt, world4 true SelectRightTab).
Proof.
  apply (@openurl_blank_text sample_collaborators "  ").
  repeat constructor.
Defined.

Lemma search_stores_text_witness :
  exists w',
    search "foo" false (world4 true SelectRightTab) = (Ret tt, w') /\
    tb_search_text (w_browser w') = Some "foo" /\
    tb_search_options (w_browser w')
      = mkSearchOptions (Some "smart") (Some false).
Proof.
  destruct (search_stores_text "foo" false (sample_tab 12)
              (world4 true SelectRightTab) eq_refl eq_refl)
    as (w' & Hrun & Htext & Hopts & _).
  exists w'. split; [exact Hrun|]. split; [exact Htext | exact Hopts].
Defined.

Lemma search_next_steps_witness :
  search_next 3 world_searched
  = (Ret tt,
     world_with_events
       [EvSetMark "'"; EvNextResult 11 None; EvNextResult 11 None;
        EvNextResult 11
          (Some (mkSearchCb 11 (mkQPoint 0 0)
                   (mkSearchOptions (Some "smart") (Some false)) "foo"
                   false))]
       world_searched).
Proof.
  pose proof (search_next_steps world_searched
                (mkTab 11 false (Some "foo") true (mkQPoint 0 0)) "foo" 3
                eq_refl eq_refl) as H.
  cbv zeta in H. destruct H as [H _].
  apply H. reflexivity.
Defined.

Lemma jseval_cb_trims_witness :
  jseval_cb (Some "42") (world4 true SelectRightTab)
  = (Ret tt,
     world_with_events [EvMessageInfo "42"] (world4 true SelectRightTab)).
Proof.
  destruct (jseval_cb_trims "42" (world4 true SelectRightTab))
    as (_ & msg & Hrun & Hshort & _).
  rewrite Hrun, Hshort; [reflexivity|].
  apply Nat.leb_le. vm_compute. reflexivity.
Defined.

Lemma buffer_count_selects_witness :
  exists w',
    @buffer sample_collaborators (Some "nothing") (Some 3) world_two_windows
      = (Ret tt, w') /\
    registry_lookup w' 0 = Some (tb_with_current (3 - 1) browser4) /\
    w_events w' = [EvActivateWindow 0; EvRaiseWindow 0].
Proof.
  destruct (@buffer_count_selects sample_collaborators world_two_windows
              (Some "nothing") 3) as (_ & H).
  destruct (H 0 eq_refl) as (_ & _ & Hin).
  apply (Hin browser4).
  - reflexivity.
  - vm_compute. split; discriminate.
  - apply (bool_decide_unpack _). vm_compute. exact I.
Defined.

Lemma tab_only_closes_witness :
  exists calls,
    tab_only false false false world_pinned = (inr tt, calls) /\
    (exists u, In (CallCloseTab 13 u) calls) /\
    ~ In (CallCloseTab 12 true) calls.
Proof.
  pose proof (tab_only_closes false false false world_pinned) as H.
  cbv zeta in H. destruct H as [_ H].
  assert (Hcur : tb_current (w_browser world_pinned) <> -1)
    by (vm_compute; discriminate).
  destruct (H eq_refl Hcur) as (calls & Hrun & Hclosed & _ & Hkept).
  exists calls. split; [exact Hrun|]. split.
  - apply Hclosed. exists 3%nat, (sample_tab 13).
    split; [reflexivity|]. split; [reflexivity|]. split.
    + split; [vm_compute; discriminate | split; discriminate].
    + right. reflexivity.
  - assert (Hnd : NoDup (map tab_id (tb_tabs (w_browser world_pinned))))
      by (apply (bool_decide_unpack _); vm_compute; exact I).
    exact (Hkept Hnd (sample_tab 12) true eq_refl).
Defined.

Lemma tab_only_pinned_prompt_witness :
  exists closes,
    tab_only false false false world_pinned
    = (inr tt,
       (closes ++
        [CallClosePromptIfPinned 11 false false false true
           "Are you sure you want to close pinned tabs?"])%list) /\
    Forall is_close closes.
Proof.
  pose proof (tab_only_pinned_prompt false false false world_pinned) as H.
  cbv zeta in H.
  assert (Hcur : tb_current (w_browser world_pinned) <> -1)
    by (vm_compute; discriminate).
  destruct (H eq_refl Hcur) as (calls & Hrun & _ & Hprompt).
  destruct (Hprompt eq_refl 1%nat (sample_pinned_tab 11))
    as (closes & Hcalls & Hcloses & _).
  - split; [reflexivity|]. split; [reflexivity|].
    split; [vm_compute; discriminate | split; discriminate].
  - intros k' t' Hlt (Hk & Hp & _).
    destruct k' as [|[|[|[|k']]]]; try lia; try discriminate Hk;
      injection Hk as <-; discriminate Hp.
  - exists closes. split; [|exact Hcloses].
    rewrite Hrun, Hcalls. reflexivity.
Defined.
